(** * File integrity checker

    A shallow embedding of [file_integrity_checker.py] (class
    [FileIntegrityChecker]) and the properties of its record store:
    persistence, the verification state machine, import and export.

    The program works on values read by [json.load]: dictionaries keyed by
    strings, lists, strings, integers, booleans and [None].  Its methods
    mutate [self.database] in place, print to the console, read the clock and
    touch the file system; here they are functions in a state-and-exception
    monad over an explicit [state]. *)

From Stdlib Require Import ZArith.
From Stdlib.Init Require Import Byte.
From stdpp Require Import base option list strings gmap.

Set Warnings "-register-all".

(** ** Python values *)

(** What [json.load] can return.  Numbers are the integers: documents with
    fractional numbers are outside this embedding.  A [dict] is a finite map
    keyed by strings; the order of its keys plays no part in any method
    modelled below. *)
Inductive json :=
  | JNull
  | JBool (b : bool)
  | JNum (n : Z)
  | JStr (s : string)
  | JArr (l : list json)
  | JObj (m : gmap string json).

(** The exception classes the program can meet.  [JSONDecodeError] and
    [UnicodeDecodeError] are subclasses of [ValueError]; [IOError] is
    [OSError] with all its subclasses.  [Unmodelled] is not a Python
    exception: it marks the one library call whose result is not a [json]
    value (see [dict_update]), and no handler catches it. *)
Inductive exn :=
  | KeyError
  | TypeError
  | AttributeError
  | ValueError
  | JSONDecodeError
  | UnicodeDecodeError
  | IOError
  | Unmodelled.

Inductive outcome (A : Type) :=
  | Return (a : A)
  | Raise (e : exn).
Arguments Return {A} a.
Arguments Raise {A} e.

Definition is_IOError (e : exn) : bool :=
  match e with IOError => true | _ => false end.

Definition is_ValueError (e : exn) : bool :=
  match e with
  | ValueError | JSONDecodeError | UnicodeDecodeError => true
  | _ => false
  end.

Definition is_JSONDecodeError (e : exn) : bool :=
  match e with JSONDecodeError => true | _ => false end.

Definition obind {A B} (o : outcome A) (k : A -> outcome B) : outcome B :=
  match o with
  | Return a => k a
  | Raise e => Raise e
  end.

(** A dict literal. *)
Definition dict (items : list (string * json)) : json :=
  JObj (list_to_map items).

(** [v[k]] for a string [k]. *)
Definition getitem (v : json) (k : string) : outcome json :=
  match v with
  | JObj m => match m !! k with
              | Some x => Return x
              | None => Raise KeyError
              end
  | _ => Raise TypeError
  end.

(** [k in v] for a string [k]: key membership in a dict, element membership
    in a list, substring test in a string. *)
Definition is_str (k : string) (v : json) : bool :=
  match v with
  | JStr s => bool_decide (s = k)
  | _ => false
  end.

Definition contains (v : json) (k : string) : outcome bool :=
  match v with
  | JObj m => Return (match m !! k with Some _ => true | None => false end)
  | JArr l => Return (existsb (is_str k) l)
  | JStr s => Return (if String.index 0 k s is Some _ then true else false)
  | _ => Raise TypeError
  end.

(** [v[k] = x] for a string [k]. *)
Definition setitem (v : json) (k : string) (x : json) : outcome json :=
  match v with
  | JObj m => Return (JObj (<[k:=x]> m))
  | _ => Raise TypeError
  end.

(** [del v[k]] for a string [k]. *)
Definition delitem (v : json) (k : string) : outcome json :=
  match v with
  | JObj m => match m !! k with
              | Some _ => Return (JObj (delete k m))
              | None => Raise KeyError
              end
  | _ => Raise TypeError
  end.

(** [v.get(k, default)]: only a dict has the method. *)
Definition get_method (v : json) (k : string) (default : json) : outcome json :=
  match v with
  | JObj m => Return (match m !! k with Some x => x | None => default end)
  | _ => Raise AttributeError
  end.

(** The attribute lookup [v.update]: only a dict has the method. *)
Definition update_method (v : json) : outcome (gmap string json) :=
  match v with
  | JObj m => Return m
  | _ => Raise AttributeError
  end.

(** [d.update(other)] on the dict [d].  Entries of [other] replace those of
    [d].  A non-empty list as [other] can introduce keys that are not
    strings, which [json] cannot hold: that call is [Unmodelled]. *)
Definition dict_update (d : gmap string json) (other : json)
  : outcome (gmap string json) :=
  match other with
  | JObj m => Return (m ∪ d)
  | JArr [] => Return d
  | JArr (_ :: _) => Raise Unmodelled
  | JStr EmptyString => Return d
  | JStr (String _ _) => Raise ValueError
  | JNull | JBool _ | JNum _ => Raise TypeError
  end.

(** [v + 1]. *)
Definition add1 (v : json) : outcome json :=
  match v with
  | JNum n => Return (JNum (n + 1))
  | JBool b => Return (JNum (Z.b2z b + 1))
  | _ => Raise TypeError
  end.

(** [h == v] for a string [h]. *)
Definition str_eq (h : string) (v : json) : bool := is_str h v.

(** [v[k1][k2]...]. *)
Fixpoint getpath (v : json) (ks : list string) : outcome json :=
  match ks with
  | [] => Return v
  | k :: ks' => obind (getitem v k) (fun inner => getpath inner ks')
  end.

(** [v[k1]...[kn] = x].  The objects on the way are mutated in place, so the
    change is seen through [v]. *)
Fixpoint setpath (v : json) (ks : list string) (x : json) : outcome json :=
  match ks with
  | [] => Return x
  | [k] => setitem v k x
  | k :: ks' =>
      obind (getitem v k) (fun inner =>
      obind (setpath inner ks' x) (fun inner' =>
      setitem v k inner'))
  end.

(** ** The world *)

(** The content of a file, by what reading it gives: [Doc v] is the text
    [json.dump] writes for [v]; [Text s] is text that is no JSON document;
    [Binary bs] is a byte sequence that is not valid UTF-8. *)
Inductive fdata :=
  | Binary (bs : list byte)
  | Text (s : string)
  | Doc (v : json).

Inductive node :=
  | Dir
  | File (readable : bool) (data : fdata).

(** How opening a path for writing goes wrong: [Denied], [open] raises and
    the file is untouched; [Torn], [open] truncates the file and the write
    then raises (no space left), leaving it empty. *)
Inductive wfault :=
  | Denied
  | Torn.

(** A [hashlib] constructor: unknown name ([ValueError]), a digest of fixed
    length, or one whose [hexdigest] needs a length argument (the SHAKE
    family). *)
Inductive hasher :=
  | Unsupported
  | FixedLen (hexdigest : fdata -> string)
  | VariableLen.

(** Lines printed by the class. *)
Inductive message :=
  | WarnLoad (e : exn)
  | ErrSave (e : exn)
  | ErrHash (file_path : string) (e : exn)
  | ErrNotExist (file_path : string)
  | ErrExport (e : exn)
  | ErrImport (e : exn).

(** The checker object ([database_path], [database]) and its surroundings:
    the file system by path name, the write faults, the number of clock
    readings taken so far, and the console. *)
Record state := mkState {
  database_path : string;
  database : json;
  fs : gmap string node;
  faults : gmap string wfault;
  ticks : nat;
  stdout : list message
}.

Definition with_database (s : state) (db : json) : state :=
  mkState (database_path s) db (fs s) (faults s) (ticks s) (stdout s).

Definition with_database_path (s : state) (p : string) : state :=
  mkState p (database s) (fs s) (faults s) (ticks s) (stdout s).

Definition with_fs (s : state) (f : gmap string node) : state :=
  mkState (database_path s) (database s) f (faults s) (ticks s) (stdout s).

Definition with_faults (s : state) (f : gmap string wfault) : state :=
  mkState (database_path s) (database s) (fs s) f (ticks s) (stdout s).

(** ** The monad *)

Definition M (A : Type) : Type := state -> outcome A * state.

Definition ret {A} (a : A) : M A := fun s => (Return a, s).

Definition raise {A} (e : exn) : M A := fun s => (Raise e, s).

Definition bind {A B} (m : M A) (k : A -> M B) : M B :=
  fun s =>
    match m s with
    | (Return a, s') => k a s'
    | (Raise e, s') => (Raise e, s')
    end.

Definition lift {A} (o : outcome A) : M A := fun s => (o, s).

(** [try: body except <classes>: handler]. *)
Definition try_except {A} (body : M A) (classes : exn -> bool)
    (handler : exn -> M A) : M A :=
  fun s =>
    match body s with
    | (Return a, s') => (Return a, s')
    | (Raise e, s') => if classes e then handler e s' else (Raise e, s')
    end.

Declare Scope py_scope.
Delimit Scope py_scope with py.
Notation "x <- m ;; k" := (bind m (fun x => k))
  (at level 100, m at next level, right associativity) : py_scope.
Notation "m ;; k" := (bind m (fun _ => k))
  (at level 100, right associativity) : py_scope.
Local Open Scope py_scope.

Definition get_database : M json := fun s => (Return (database s), s).

Definition set_database (db : json) : M unit :=
  fun s => (Return tt, with_database s db).

Definition get_database_path : M string :=
  fun s => (Return (database_path s), s).

Definition print (m : message) : M unit :=
  fun s => (Return tt,
            mkState (database_path s) (database s) (fs s) (faults s)
                    (ticks s) (stdout s ++ [m])).

(** [os.path.exists(p)] and [Path.exists()]. *)
Definition path_exists (p : string) : M bool :=
  fun s => (Return (match fs s !! p with Some _ => true | None => false end),
            s).

(** [open(p, 'r')] or [open(p, 'rb')], and reading all of the file. *)
Definition open_read (p : string) : M fdata :=
  fun s =>
    match fs s !! p with
    | Some (File true d) => (Return d, s)
    | _ => (Raise IOError, s)
    end.

(** [json.load(f)] on a file opened with [encoding='utf-8']. *)
Definition json_load (d : fdata) : outcome json :=
  match d with
  | Doc v => Return v
  | Text _ => Raise JSONDecodeError
  | Binary _ => Raise UnicodeDecodeError
  end.

(** [with open(p, 'w', encoding='utf-8') as f: json.dump(v, f, ...)]. *)
Definition open_write_dump (p : string) (v : json) : M unit :=
  fun s =>
    match fs s !! p with
    | Some Dir => (Raise IOError, s)
    | n =>
        let r := match n with Some (File r _) => r | _ => true end in
        match faults s !! p with
        | Some Denied => (Raise IOError, s)
        | Some Torn =>
            (Raise IOError, with_fs s (<[p := File r (Text EmptyString)]> (fs s)))
        | None => (Return tt, with_fs s (<[p := File r (Doc v)]> (fs s)))
        end
    end.

(** [self.database[k1]...[kn] = x]. *)
Definition assign (ks : list string) (x : json) : M unit :=
  db <- get_database ;;
  db' <- lift (setpath db ks x) ;;
  set_database db'.

(** [self.database[k1]...[kn]]. *)
Definition read (ks : list string) : M json :=
  db <- get_database ;;
  lift (getpath db ks).

(** ** Reading the store *)

(** The [files] mapping of a database, the record of a path and a field of
    it, where the database has that shape. *)
Definition files_of (db : json) : option (gmap string json) :=
  match db with
  | JObj m => match m !! "files" with Some (JObj f) => Some f | _ => None end
  | _ => None
  end.

Definition record_at (db : json) (p : string) : option (gmap string json) :=
  match files_of db with
  | Some f => match f !! p with Some (JObj r) => Some r | _ => None end
  | None => None
  end.

Definition field_at (db : json) (p k : string) : option json :=
  match record_at db p with
  | Some r => r !! k
  | None => None
  end.

Definition metadata_of (db : json) : option (gmap string json) :=
  match db with
  | JObj m => match m !! "metadata" with Some (JObj md) => Some md | _ => None end
  | _ => None
  end.

(** The integer that [add1] adds one to. *)
Definition int_value (v : json) : option Z :=
  match v with
  | JNum n => Some n
  | JBool b => Some (Z.b2z b)
  | _ => None
  end.

(** Whether a write to [p] goes through. *)
Definition writable (s : state) (p : string) : bool :=
  match fs s !! p, faults s !! p with
  | Some Dir, _ => false
  | _, Some _ => false
  | _, None => true
  end.

(** The database in which the record of [q] is [r]: [m] is the top-level
    dict and [f] its [files] mapping. *)
Definition put_record (m f : gmap string json) (q : string)
    (r : gmap string json) : json :=
  JObj (<["files" := JObj (<[q := JObj r]> f)]> m).

(** ** A small world for the examples *)

Module Sample.

(** Paths are joined to the working directory [/work] unless absolute. *)
Definition abspath (p : string) : string :=
  if String.prefix "/" p then p else "/work/" +:+ p.

(** Stand-ins for the digests of [hashlib]: a tagged copy of the text,
    enough to tell contents and algorithms apart. *)
Definition digest (tag : string) (d : fdata) : string :=
  match d with
  | Text s => tag +:+ ":" +:+ s
  | Binary _ => tag +:+ ":bytes"
  | Doc _ => tag +:+ ":json"
  end.

Definition hashlib_new (name : string) : hasher :=
  if bool_decide (name = "sha256") then FixedLen (digest "sha256")
  else if bool_decide (name = "md5") then FixedLen (digest "md5")
  else if bool_decide (name = "shake_128") then VariableLen
  else Unsupported.

Definition st_size (n : node) : Z :=
  match n with
  | File _ (Text s) => Z.of_nat (String.length s)
  | _ => 0
  end.

Definition isoformat_now (n : nat) : string :=
  match n with
  | 0 => "t0" | 1 => "t1" | 2 => "t2" | 3 => "t3" | 4 => "t4"
  | 5 => "t5" | 6 => "t6" | 7 => "t7" | _ => "t8"
  end%nat.

(** The record of [/work/a.txt], taken when the file read "hello". *)
Definition record (algorithm : string) : gmap string json :=
  list_to_map
    [("hash", JStr (digest algorithm (Text "hello")));
     ("algorithm", JStr algorithm);
     ("size", JNum 5);
     ("added_date", JStr "t0");
     ("last_checked", JStr "t0");
     ("description", JStr "notes");
     ("check_count", JNum 1);
     ("status", JStr "verified")].

Definition metadata : gmap string json :=
  list_to_map [("created", JStr "t0")].

Definition files (algorithm : string) : gmap string json :=
  list_to_map [("/work/a.txt", JObj (record algorithm))].

Definition top (algorithm : string) : gmap string json :=
  list_to_map [("files", JObj (files algorithm));
               ("metadata", JObj metadata)].

(** A store to import: another record for [/work/a.txt], one for
    [/work/b.txt], and its own metadata. *)
Definition other_files : gmap string json :=
  list_to_map [("/work/a.txt", JObj (record "md5"));
               ("/work/b.txt", JObj (record "sha256"))].

Definition other_store : json :=
  dict [("files", JObj other_files);
        ("metadata", dict [("created", JStr "t7")])].

(** The disk: the tracked file with the given text, the database file and
    a file to import. *)
Definition disk (content : string) (db : json) : gmap string node :=
  list_to_map [("/work/a.txt", File true (Text content));
               ("/work/db.json", File true (Doc db));
               ("/work/other.json", File true (Doc other_store))].

(** A checker on [/work/db.json] holding the store above, the tracked
    file reading [content]. *)
Definition checker (algorithm content : string)
    (faults : gmap string wfault) : state :=
  mkState "/work/db.json" (JObj (top algorithm))
          (disk content (JObj (top algorithm))) faults 1 [].

(** The same with a database file that cannot be written. *)
Definition read_only : gmap string wfault :=
  list_to_map [("/work/db.json", Denied)].

(** A world whose database file is not valid UTF-8, before any checker is
    created. *)
Definition undecodable : state :=
  mkState EmptyString JNull
          (list_to_map [("/work/db.json", File true (Binary [xff]))])
          ∅ 0 [].

(** The keys of [files], in the order of the dict. *)
Definition keys : list string := ["/work/a.txt"].

(** A checker whose store has no record yet. *)
Definition empty : state :=
  mkState "/work/db.json"
          (dict [("files", dict []); ("metadata", JObj metadata)])
          ∅ ∅ 1 [].

(** A document to import that has records but no metadata. *)
Definition bare_store : gmap string json :=
  list_to_map [("files", JObj other_files)].

(** A store edited by hand: the record of [/work/c.txt] has only its
    hash. *)
Definition partial_items : list (string * json) :=
  [("/work/a.txt", JObj (record "sha256"));
   ("/work/c.txt", dict [("hash", JStr "sha256:x")])].

Definition partial : state :=
  mkState "/work/db.json"
          (dict [("files", JObj (list_to_map partial_items));
                 ("metadata", JObj metadata)])
          (disk "hello" JNull) ∅ 1 [].

End Sample.

(** ** The class [FileIntegrityChecker] *)

Section FileIntegrityChecker.

(** The library functions the class calls: [os.path.abspath],
    [hashlib.new], the [st_size] of [os.stat], and the text of
    [datetime.now().isoformat()] at the n-th reading of the clock. *)
Variable abspath : string -> string.
Variable hashlib_new : string -> hasher.
Variable st_size : node -> Z.
Variable isoformat_now : nat -> string.

Definition now : M string :=
  fun s => (Return (isoformat_now (ticks s)),
            mkState (database_path s) (database s) (fs s) (faults s)
                    (S (ticks s)) (stdout s)).

Definition os_stat_size (p : string) : M Z :=
  fun s =>
    match fs s !! p with
    | Some n => (Return (st_size n), s)
    | None => (Raise IOError, s)
    end.

Definition fresh_store (created : string) : json :=
  dict [("files", dict []); ("metadata", dict [("created", JStr created)])].

Definition _load_database : M json :=
  p <- get_database_path ;;
  ex <- path_exists p ;;
  if ex then
    try_except
      (d <- open_read p ;;
       lift (json_load d))
      (fun e => is_JSONDecodeError e || is_IOError e)
      (fun e =>
         print (WarnLoad e) ;;
         t <- now ;;
         ret (fresh_store t))
  else
    t <- now ;;
    ret (fresh_store t).

Definition __init__ (path : string) : M unit :=
  fun s => (db <- _load_database ;; set_database db) (with_database_path s path).

Definition _save_database : M bool :=
  try_except
    (t <- now ;;
     assign ["metadata"; "last_updated"] (JStr t) ;;
     p <- get_database_path ;;
     db <- get_database ;;
     open_write_dump p db ;;
     ret true)
    is_IOError
    (fun e =>
       print (ErrSave e) ;;
       ret false).

Definition calculate_file_hash (file_path : string) (algorithm : json)
  : M (option string) :=
  try_except
    (match algorithm with
     | JStr name =>
         match hashlib_new name with
         | Unsupported => raise ValueError
         | FixedLen hexdigest =>
             d <- open_read file_path ;;
             ret (Some (hexdigest d))
         | VariableLen =>
             open_read file_path ;;
             raise TypeError
         end
     | _ => raise TypeError
     end)
    (fun e => is_IOError e || is_ValueError e)
    (fun e =>
       print (ErrHash file_path e) ;;
       ret None).

Definition add_file (file_path description : string) : M bool :=
  let file_path := abspath file_path in
  ex <- path_exists file_path ;;
  if negb ex then
    print (ErrNotExist file_path) ;;
    ret false
  else
    hash_value <- calculate_file_hash file_path (JStr "sha256") ;;
    match hash_value with
    | None => ret false
    | Some hash_value =>
        size <- os_stat_size file_path ;;
        added_date <- now ;;
        last_checked <- now ;;
        let file_info :=
          dict [("hash", JStr hash_value);
                ("algorithm", JStr "sha256");
                ("size", JNum size);
                ("added_date", JStr added_date);
                ("last_checked", JStr last_checked);
                ("description", JStr description);
                ("check_count", JNum 1);
                ("status", JStr "verified")] in
        assign ["files"; file_path] file_info ;;
        _save_database
    end.

(** [stored_info] is a second name for the object
    [self.database["files"][file_path]], which the method also mutates
    through [self.database]: every use of [stored_info] reads the object as
    it is at that moment. *)
Definition verify_file (file_path : string) : M (string * json) :=
  let file_path := abspath file_path in
  let stored_info := read ["files"; file_path] in
  files <- read ["files"] ;;
  known <- lift (contains files file_path) ;;
  if negb known then
    ret ("unknown", dict [("message", JStr "File not in database")])
  else
    ex <- path_exists file_path ;;
    if negb ex then
      ret ("missing", dict [("message", JStr "File no longer exists")])
    else
      info <- stored_info ;;
      algorithm <- lift (get_method info "algorithm" (JStr "sha256")) ;;
      current_hash <- calculate_file_hash file_path algorithm ;;
      match current_hash with
      | None =>
          ret ("error",
               dict [("message", JStr "Could not calculate current hash")])
      | Some current_hash =>
          t <- now ;;
          assign ["files"; file_path; "last_checked"] (JStr t) ;;
          info <- stored_info ;;
          count <- lift (get_method info "check_count" (JNum 0)) ;;
          count' <- lift (add1 count) ;;
          assign ["files"; file_path; "check_count"] count' ;;
          info <- stored_info ;;
          expected <- lift (getitem info "hash") ;;
          if str_eq current_hash expected then
            assign ["files"; file_path; "status"] (JStr "verified") ;;
            _save_database ;;
            last_checked <- read ["files"; file_path; "last_checked"] ;;
            ret ("verified",
                 dict [("message", JStr "File integrity verified");
                       ("hash", JStr current_hash);
                       ("last_checked", last_checked)])
          else
            assign ["files"; file_path; "status"] (JStr "tampered") ;;
            t <- now ;;
            assign ["files"; file_path; "tampered_date"] (JStr t) ;;
            _save_database ;;
            info <- stored_info ;;
            expected <- lift (getitem info "hash") ;;
            tampered_date <- read ["files"; file_path; "tampered_date"] ;;
            ret ("tampered",
                 dict [("message", JStr "File has been modified");
                       ("expected_hash", expected);
                       ("current_hash", JStr current_hash);
                       ("tampered_date", tampered_date)])
      end.

Definition remove_file (file_path : string) : M bool :=
  let file_path := abspath file_path in
  files <- read ["files"] ;;
  known <- lift (contains files file_path) ;;
  if known then
    files <- read ["files"] ;;
    files' <- lift (delitem files file_path) ;;
    assign ["files"] files' ;;
    _save_database
  else
    ret false.

Definition export_database (export_path : string) : M bool :=
  try_except
    (db <- get_database ;;
     open_write_dump export_path db ;;
     ret true)
    is_IOError
    (fun e =>
       print (ErrExport e) ;;
       ret false).

Definition import_database (import_path : string) (merge : bool) : M bool :=
  try_except
    (d <- open_read import_path ;;
     imported_data <- lift (json_load d) ;;
     (if merge then
        files <- read ["files"] ;;
        target <- lift (update_method files) ;;
        other <- lift (get_method imported_data "files" (dict [])) ;;
        merged <- lift (dict_update target other) ;;
        assign ["files"] (JObj merged)
      else
        set_database imported_data) ;;
     _save_database)
    (fun e => is_JSONDecodeError e || is_IOError e)
    (fun e =>
       print (ErrImport e) ;;
       ret false).

(** ** What a verification observes *)

(** [stored_info.get("algorithm", "sha256")]. *)
Definition recorded_algorithm (r : gmap string json) : json :=
  default (JStr "sha256") (r !! "algorithm").

(** The digest [calculate_file_hash] returns for the file [q] under the
    algorithm of its record [r], if it returns one. *)
Definition hash_now (s : state) (q : string) (r : gmap string json)
  : option string :=
  match fst (calculate_file_hash q (recorded_algorithm r) s) with
  | Return (Some h) => Some h
  | _ => None
  end.

(** The comparison a verification of [q] makes in state [s]: [Some true]
    when the current digest equals the stored hash, [Some false] when it
    differs, [None] when no digest is computed or no hash is stored. *)
Definition verdict (s : state) (q : string) : option bool :=
  match record_at (database s) q with
  | Some r =>
      match hash_now s q r, r !! "hash" with
      | Some h, Some e => Some (str_eq h e)
      | _, _ => None
      end
  | None => None
  end.

(** ** Sequences of verifications *)

(** One call of [verify_file]: the canonical path, what the call observed
    ([verdict] in the state it started from) and how it ended. *)
Record call := mkCall {
  call_path : string;
  call_verdict : option bool;
  call_outcome : outcome (string * json)
}.

(** [run s tr s']: from [s], the calls [tr] of [verify_file], oldest first,
    lead to [s'].  Between calls the surroundings may change the file
    system; the checker object is touched by the calls only. *)
Inductive run : state -> list call -> state -> Prop :=
  | run_done s : run s [] s
  | run_verify s p o s1 tr s' :
      verify_file p s = (o, s1) ->
      run s1 tr s' ->
      run s (mkCall (abspath p) (verdict s (abspath p)) o :: tr) s'
  | run_outside s fs' faults' tr s' :
      run (with_faults (with_fs s fs') faults') tr s' ->
      run s tr s'.

(** The most recent call of [tr] on the path [q] that compared a digest
    with the stored hash: whether they were equal, and how the call
    ended. *)
Fixpoint last_check (q : string) (tr : list call)
  : option (bool * outcome (string * json)) :=
  match tr with
  | [] => None
  | c :: tr' =>
      match last_check q tr' with
      | Some x => Some x
      | None =>
          if bool_decide (call_path c = q) then
            match call_verdict c with
            | Some b => Some (b, call_outcome c)
            | None => None
            end
          else None
      end
  end.

(** ** The methods that go through all records *)

(** Python iterates a dict in the order in which its keys were inserted,
    which a finite map does not record: the two methods below take that
    order as [keys].  [key_order keys m] says that [keys] lists the keys
    of [m], each once. *)
Definition key_order (keys : list string) (m : gmap string json) : Prop :=
  NoDup keys /\ forall k, k ∈ keys <-> is_Some (m !! k).

(** [m.items()] in the order [keys]. *)
Definition items_in (keys : list string) (m : gmap string json)
  : list (string * json) :=
  omap (fun k => match m !! k with
                 | Some v => Some (k, v)
                 | None => None
                 end) keys.

(** The characters of a string of UTF-8 text, as Python's [for c in s]
    yields them: a byte of the form 10xxxxxx continues the character
    before it. *)
Definition continuation (c : Ascii.ascii) : bool :=
  match c with
  | Ascii.Ascii _ _ _ _ _ _ false true => true
  | _ => false
  end.

Fixpoint characters (s : string) : list string :=
  match s with
  | EmptyString => []
  | String c rest =>
      match characters rest with
      | String c' more :: tail =>
          if continuation c' then String c (String c' more) :: tail
          else String c EmptyString :: String c' more :: tail
      | tail => String c EmptyString :: tail
      end
  end.

(** [for x in v]: what a loop over [v] goes through. *)
Definition iterate (keys : list string) (v : json) : outcome (list json) :=
  match v with
  | JObj m => Return ((fun kv => JStr (fst kv)) <$> items_in keys m)
  | JArr l => Return l
  | JStr s => Return (JStr <$> characters s)
  | _ => Raise TypeError
  end.

(** The loop of [verify_all_files]; [os.path.abspath] raises [TypeError]
    on what is not a string. *)
Fixpoint verify_each (items : list json) (results : gmap string json)
  : M (gmap string json) :=
  match items with
  | [] => ret results
  | JStr file_path :: rest =>
      r <- verify_file file_path ;;
      verify_each rest
        (<[file_path := dict [("status", JStr (fst r)); ("info", snd r)]]>
           results)
  | _ :: _ => raise TypeError
  end.

Definition verify_all_files (keys : list string) : M (gmap string json) :=
  files <- read ["files"] ;;
  items <- lift (iterate keys files) ;;
  verify_each items ∅.

(** The attribute lookup [v.items]: only a dict has the method. *)
Definition items_method (keys : list string) (v : json)
  : outcome (list (string * json)) :=
  match v with
  | JObj m => Return (items_in keys m)
  | _ => Raise AttributeError
  end.

(** The dict that [list_files] builds for one record. *)
Definition list_entry (file_path : string) (info : json) : outcome json :=
  obind (getitem info "hash") (fun hash =>
  obind (getitem info "size") (fun size =>
  obind (getitem info "added_date") (fun added_date =>
  obind (get_method info "last_checked" (JStr "Never")) (fun last_checked =>
  obind (get_method info "status" (JStr "unknown")) (fun status =>
  obind (get_method info "description" (JStr EmptyString)) (fun description =>
  obind (get_method info "check_count" (JNum 0)) (fun check_count =>
  Return (dict [("path", JStr file_path);
                ("hash", hash);
                ("size", size);
                ("added_date", added_date);
                ("last_checked", last_checked);
                ("status", status);
                ("description", description);
                ("check_count", check_count)])))))))).

Fixpoint list_each (items : list (string * json)) : outcome (list json) :=
  match items with
  | [] => Return []
  | (file_path, info) :: rest =>
      obind (list_entry file_path info) (fun entry =>
      obind (list_each rest) (fun entries =>
      Return (entry :: entries)))
  end.

Definition list_files (keys : list string) : M (list json) :=
  files <- read ["files"] ;;
  items <- lift (items_method keys files) ;;
  lift (list_each items).

(** The fields a verification may write. *)
Definition check_field (k : string) : Prop :=
  k = "last_checked" \/ k = "check_count" \/ k = "status"
  \/ k = "tampered_date".

(** [s'] has the records of [s], each with the fields of [s] but for the
    check fields. *)
Definition same_baseline (s s' : state) : Prop :=
  dom <$> files_of (database s') = dom <$> files_of (database s) /\
  forall q k, ~ check_field k ->
    field_at (database s') q k = field_at (database s) q k.

(** The entry of [verify_all_files] for a call that answered [st] with
    [info]. *)
Definition result_entry (st : string) (info : json) : json :=
  dict [("status", JStr st); ("info", info)].

(** A record that [list_files] can show: a dict with the three fields it
    reads by subscript. *)
Definition listable (v : json) : Prop :=
  exists r, v = JObj r /\ is_Some (r !! "hash") /\ is_Some (r !! "size")
            /\ is_Some (r !! "added_date").

(** ** Equations of the primitives *)

Lemma getpath_nil v : getpath v [] = Return v.
Proof. reflexivity. Qed.

Lemma getpath_cons v k ks :
  getpath v (k :: ks) = obind (getitem v k) (fun inner => getpath inner ks).
Proof. reflexivity. Qed.

Lemma setpath_one v k x : setpath v [k] x = setitem v k x.
Proof. reflexivity. Qed.

Lemma setpath_cons v k k' ks x :
  setpath v (k :: k' :: ks) x =
  obind (getitem v k) (fun inner =>
  obind (setpath inner (k' :: ks) x) (fun inner' =>
  setitem v k inner')).
Proof. reflexivity. Qed.

Local Arguments setpath : simpl never.
Local Arguments getpath : simpl never.
Local Arguments assign : simpl never.
Local Arguments read : simpl never.
Local Arguments bind : simpl never.
Local Arguments try_except : simpl never.
Local Arguments _save_database : simpl never.
Local Arguments calculate_file_hash : simpl never.

Lemma bind_eq {A B} (m : M A) (k : A -> M B) s :
  bind m k s =
  match m s with
  | (Return a, s') => k a s'
  | (Raise e, s') => (Raise e, s')
  end.
Proof. reflexivity. Qed.

Lemma read_eq ks s : read ks s = (getpath (database s) ks, s).
Proof. reflexivity. Qed.

Lemma assign_eq ks x s :
  assign ks x s =
  match setpath (database s) ks x with
  | Return db' => (Return tt, with_database s db')
  | Raise e => (Raise e, s)
  end.
Proof. unfold assign, bind, lift, get_database, set_database. by destruct setpath. Qed.

Lemma getitem_Raise v k e :
  getitem v k = Raise e -> e = KeyError \/ e = TypeError.
Proof.
  destruct v as [| | | | |m]; simpl; try (intros [= <-]; auto; fail).
  destruct (m !! k); intros [= <-]; auto.
Qed.

Lemma setitem_Raise v k x e : setitem v k x = Raise e -> e = TypeError.
Proof. destruct v; simpl; by intros [= <-]. Qed.

Lemma setpath_Raise v ks x e :
  setpath v ks x = Raise e -> e = KeyError \/ e = TypeError.
Proof.
  revert v. induction ks as [|k ks IH]; intros v; [done|].
  destruct ks as [|k' ks].
  - intros H. right. by eapply setitem_Raise.
  - rewrite setpath_cons.
    destruct (getitem v k) as [inner|e'] eqn:Hg.
    + cbn [obind].
      destruct (setpath inner (k' :: ks) x) as [inner'|e'] eqn:Hs.
      * cbn [obind]. intros H. right. by eapply setitem_Raise.
      * cbn [obind]. intros [= <-]. by eapply IH.
    + cbn [obind]. intros [= <-]. by eapply getitem_Raise.
Qed.

Lemma getpath_files db f ks :
  files_of db = Some f -> getpath db ("files" :: ks) = getpath (JObj f) ks.
Proof.
  rewrite getpath_cons.
  destruct db as [| | | | |m]; simpl; try done.
  destruct (m !! "files") as [[| | | | |f']|]; simpl; try done.
  by intros [= ->].
Qed.

Lemma setpath_metadata_files db x db' :
  setpath db ["metadata"; "last_updated"] x = Return db' ->
  files_of db' = files_of db.
Proof.
  rewrite setpath_cons.
  destruct db as [| | | | |m]; simpl; try done.
  destruct (m !! "metadata") as [md|]; simpl; try done.
  rewrite setpath_one.
  destruct md as [| | | | |md]; simpl; try done.
  intros [= <-]. simpl. by rewrite lookup_insert_ne.
Qed.

Ltac step :=
  repeat (progress (rewrite ?bind_eq, ?read_eq, ?assign_eq;
                    unfold ret, raise, lift, with_database; simpl)).

Ltac paths :=
  repeat (progress (rewrite ?getpath_cons, ?getpath_nil, ?setpath_cons,
                      ?setpath_one; simpl)).

(** ** Saving *)

Lemma save_database_inv s o s' :
  _save_database s = (o, s') ->
  database_path s' = database_path s /\ faults s' = faults s /\
  ((exists e, o = Raise e /\ e <> IOError /\
              setpath (database s) ["metadata"; "last_updated"]
                (JStr (isoformat_now (ticks s))) = Raise e /\
              database s' = database s /\ fs s' = fs s /\
              stdout s' = stdout s)
   \/ (exists db',
         setpath (database s) ["metadata"; "last_updated"]
           (JStr (isoformat_now (ticks s))) = Return db' /\
         database s' = db' /\
         ((o = Return true /\ writable s (database_path s) = true /\
           (exists r, fs s' = <[database_path s := File r (Doc db')]> (fs s)) /\
           stdout s' = stdout s)
          \/ (o = Return false /\ writable s (database_path s) = false /\
              (fs s' = fs s \/
               exists r, fs s' = <[database_path s := File r (Text EmptyString)]> (fs s)) /\
              stdout s' = stdout s ++ [ErrSave IOError])))).
Proof.
  destruct s as [path db fs0 fl tk out].
  unfold _save_database, try_except. step.
  destruct (setpath db _ _) as [db'|e] eqn:Hset.
  - step. unfold open_write_dump, writable. simpl.
    destruct (fs0 !! path) as [[|r d]|] eqn:Hn, (fl !! path) as [[|]|] eqn:Hf;
      step; intros; simplify_eq; simpl; (split; [done|split; [done|]]);
      right; exists db'; (split; [done|split; [done|]]); eauto 10.
  - apply setpath_Raise in Hset as Hne.
    destruct Hne as [-> | ->]; simpl; intros; simplify_eq; simpl;
      (split; [done|split; [done|]]); left; eauto 10.
Qed.

Lemma save_database_files s o s' :
  _save_database s = (o, s') ->
  files_of (database s') = files_of (database s).
Proof.
  intros H. apply save_database_inv in H as (_ & _ & [H|H]).
  - destruct H as (e & _ & _ & _ & -> & _). done.
  - destruct H as (db' & Hset & -> & _). by eapply setpath_metadata_files.
Qed.

(** ** Hashing *)

Lemma calculate_file_hash_inv q alg s o s1 :
  calculate_file_hash q alg s = (o, s1) ->
  database s1 = database s /\ fs s1 = fs s /\ faults s1 = faults s /\
  database_path s1 = database_path s /\ ticks s1 = ticks s /\
  forall h, o = Return (Some h) ->
    s1 = s /\
    exists a hexdigest d,
      alg = JStr a /\ hashlib_new a = FixedLen hexdigest /\
      fs s !! q = Some (File true d) /\ h = hexdigest d.
Proof.
  destruct s as [path db fs0 fl tk out].
  unfold calculate_file_hash, try_except, open_read.
  destruct alg as [| | |a| |]; step;
    try (intros Heq; simplify_eq; simpl; by repeat split).
  destruct (hashlib_new a) as [|hexdigest|] eqn:Hh; step;
    try (intros Heq; simplify_eq; simpl; by repeat split).
  - destruct (fs0 !! q) as [[|[] d]|] eqn:Hq; step;
      intros Heq; simplify_eq; simpl; repeat split; try done.
    all: simplify_eq; eauto 10.
  - destruct (fs0 !! q) as [[|[] d]|] eqn:Hq; step;
      intros Heq; simplify_eq; simpl; by repeat split.
Qed.

Lemma hash_now_inv s q r h :
  hash_now s q r = Some h ->
  calculate_file_hash q (recorded_algorithm r) s = (Return (Some h), s) /\
  exists a hexdigest d,
    recorded_algorithm r = JStr a /\ hashlib_new a = FixedLen hexdigest /\
    fs s !! q = Some (File true d) /\ h = hexdigest d.
Proof.
  unfold hash_now.
  destruct (calculate_file_hash q (recorded_algorithm r) s) as [o s1] eqn:E.
  pose proof (calculate_file_hash_inv _ _ _ _ _ E) as (_ & _ & _ & _ & _ & Hh).
  destruct o as [[h'|]|]; simpl; try done.
  intros [= ->]. destruct (Hh h eq_refl) as [-> ?]. by split.
Qed.

(** ** The record of one path *)

Local Arguments put_record : simpl never.

Lemma put_record_id m f q r :
  m !! "files" = Some (JObj f) -> f !! q = Some (JObj r) ->
  JObj m = put_record m f q r.
Proof.
  intros Hm Hf. unfold put_record.
  rewrite (insert_id f q) by done. by rewrite insert_id.
Qed.

Lemma setpath_put_record m f q r k x :
  setpath (put_record m f q r) ["files"; q; k] x
  = Return (put_record m f q (<[k:=x]> r)).
Proof.
  unfold put_record.
  repeat (progress (paths; rewrite ?lookup_insert_eq; simpl)).
  by rewrite !insert_insert_eq.
Qed.

Lemma getpath_put_record m f q r ks :
  getpath (put_record m f q r) ("files" :: q :: ks) = getpath (JObj r) ks.
Proof.
  unfold put_record. rewrite (getpath_cons _ "files"). simpl.
  rewrite lookup_insert_eq. simpl. rewrite (getpath_cons _ q). simpl.
  by rewrite lookup_insert_eq.
Qed.

Lemma verdict_located s q m f r :
  database s = JObj m -> m !! "files" = Some (JObj f) ->
  f !! q = Some (JObj r) ->
  verdict s q =
  match hash_now s q r, r !! "hash" with
  | Some h, Some e => Some (str_eq h e)
  | _, _ => None
  end.
Proof.
  intros Hdb Hm Hf. unfold verdict, record_at, files_of.
  by rewrite Hdb, Hm, Hf.
Qed.

Lemma add1_Return v c :
  add1 v = Return c -> exists n, int_value v = Some n /\ c = JNum (n + 1).
Proof. destruct v; simpl; intros [= <-]; eauto. Qed.

Ltac lk :=
  repeat first [ rewrite lookup_insert_eq
               | rewrite lookup_insert_ne by done ].

(** ** Verification, case by case *)

Local Arguments verdict : simpl never.
Local Arguments hash_now : simpl never.

Lemma verify_file_inv p s o s' :
  verify_file p s = (o, s') ->
  let q := abspath p in
  ((forall r, record_at (database s) q = Some r -> hash_now s q r = None) /\
   database s' = database s /\ fs s' = fs s /\
   forall st info, o = Return (st, info) ->
     st = "unknown" \/ st = "missing" \/ st = "error")
  \/
  (exists m f r h r',
     database s = JObj m /\ m !! "files" = Some (JObj f) /\
     f !! q = Some (JObj r) /\ hash_now s q r = Some h /\
     files_of (database s') = Some (<[q := JObj r']> f) /\
     (forall k, k <> "last_checked" -> k <> "check_count" ->
                k <> "status" -> k <> "tampered_date" ->
                r' !! k = r !! k) /\
     (verdict s q = None ->
        r' !! "status" = r !! "status" /\
        r' !! "tampered_date" = r !! "tampered_date") /\
     (verdict s q = Some true ->
        r' !! "tampered_date" = r !! "tampered_date") /\
     (is_Some (r !! "tampered_date") -> is_Some (r' !! "tampered_date")) /\
     (forall st info, o = Return (st, info) ->
        exists e n,
          r !! "hash" = Some e /\
          int_value (default (JNum 0) (r !! "check_count")) = Some n /\
          r' !! "check_count" = Some (JNum (n + 1)) /\
          st = (if str_eq h e then "verified" else "tampered") /\
          r' !! "status" = Some (JStr st) /\
          getitem info (if str_eq h e then "hash" else "current_hash")
            = Return (JStr h))).
Proof.
  intros H q. revert H.
  destruct s as [path db fs0 fl tk out].
  unfold verify_file. fold q. step. paths.
  destruct db as [| | | | |m]; step;
    try (intros; simplify_eq; left; simpl; by repeat split).
  destruct (m !! "files") as [files|] eqn:Hfiles; step;
    try (intros; simplify_eq; left; unfold record_at; simpl;
         rewrite ?Hfiles; by repeat split).
  destruct files as [| |n|sf|lf|f].
  1-5: assert (Hv : forall r, record_at (JObj m) q = Some r ->
                      hash_now (mkState path (JObj m) fs0 fl tk out) q r = None)
         by (unfold record_at, files_of; by rewrite Hfiles).
  1-5: repeat first
         [ progress step | progress paths | rewrite Hfiles
         | match goal with
           | |- context [match ?x with _ => _ end] => destruct x eqn:?
           end ];
       intros Heq; simplify_eq; left; (split; [exact Hv|]);
       simpl; (repeat split; try done); intros; simplify_eq; auto.
  pose (s0 := mkState path (JObj m) fs0 fl tk out).
  simpl. destruct (f !! q) as [rec|] eqn:Hq; step.
  2:{ intros Heq; simplify_eq; left. split.
      { unfold record_at, files_of. simpl. by rewrite Hfiles, Hq. }
      simpl. repeat split; try done. intros; simplify_eq; auto. }
  destruct (fs0 !! q) as [n|] eqn:Hn; step.
  2:{ intros Heq; simplify_eq; left. split.
      { intros r _.
        destruct (hash_now _ q r) as [h|] eqn:Hh; [|done].
        apply hash_now_inv in Hh as (_ & ? & ? & ? & _ & _ & Hd & _).
        simpl in Hd. congruence. }
      simpl. repeat split; try done. intros; simplify_eq; auto. }
  paths. rewrite Hfiles. simpl. paths. rewrite Hq. simpl. step.
  destruct rec as [| | | | |r]; step;
    try (intros Heq; simplify_eq; left; split;
         [ unfold record_at, files_of; simpl; by rewrite Hfiles, Hq
         | simpl; repeat split; try done; intros; simplify_eq; auto ]).
  change (match r !! "algorithm" with Some x => x | None => JStr "sha256" end)
    with (recorded_algorithm r).
  assert (Hrec : record_at (database s0) q = Some r)
    by (unfold record_at, files_of; simpl; by rewrite Hfiles, Hq).
  assert (Hloc : verdict s0 q =
                 match hash_now s0 q r, r !! "hash" with
                 | Some h, Some e => Some (str_eq h e)
                 | _, _ => None
                 end) by (by apply (verdict_located s0 q m f r)).
  assert (Hnow : hash_now s0 q r =
                 match fst (calculate_file_hash q (recorded_algorithm r) s0) with
                 | Return (Some h) => Some h
                 | _ => None
                 end) by done.
  fold s0 in Hloc |- *.
  destruct (calculate_file_hash q (recorded_algorithm r) s0)
    as [[[h|]|e] s1] eqn:Hcalc;
    pose proof (calculate_file_hash_inv _ _ _ _ _ Hcalc)
      as (Hdb1 & Hfs1 & _ & _ & _ & Hsome);
    simpl in Hnow; rewrite Hnow in Hloc.
  2,3: assert (Hnone : forall r', record_at (database s0) q = Some r' ->
                          hash_now s0 q r' = None)
         by (intros r' Hr'; rewrite Hrec in Hr'; by simplify_eq).
  2,3: step; intros Heq; simplify_eq; left; (split; [exact Hnone|]);
       (repeat split; try done); intros; simplify_eq; auto.
  destruct (Hsome h eq_refl) as [-> _]. clear Hsome Hdb1 Hfs1.
  match goal with |- _ -> ?C => set (Concl := C) end.
  unfold s0. rewrite (put_record_id m f q r Hfiles Hq).
  repeat (progress (step; rewrite ?setpath_put_record, ?getpath_put_record,
                      ?getpath_nil; simpl)).
  lk.
  destruct (add1 _) as [c'|e] eqn:Hadd.
  2:{ intros Heq; simplify_eq; unfold Concl. right.
      exists m, f, r, h, (<["last_checked":=JStr (isoformat_now tk)]> r).
      simpl; lk; repeat split; try done; intros; simplify_eq; by lk. }
  apply add1_Return in Hadd as (cnt & Hcnt & ->).
  repeat (progress (step; rewrite ?setpath_put_record, ?getpath_put_record,
                      ?getpath_nil; simpl)).
  lk.
  destruct (r !! "hash") as [e|] eqn:Hhash; step.
  2:{ intros Heq; simplify_eq; unfold Concl. right.
      match goal with
      | |- context [put_record m f q ?R] => exists m, f, r, h, R
      end.
      simpl; lk; repeat split; try done; intros; simplify_eq; by lk. }
  destruct (str_eq h e) eqn:Hcmp;
    repeat (progress (step; rewrite ?setpath_put_record, ?getpath_put_record,
                        ?getpath_nil; simpl)).
  - destruct (_save_database _) as [os s3] eqn:Hsave.
    apply save_database_files in Hsave as Hf3. simpl in Hf3.
    rewrite lookup_insert_eq in Hf3.
    destruct os as [b|e']; step.
    2:{ intros Heq; simplify_eq; unfold Concl. right.
        match type of Hf3 with
        | _ = Some (<[q := JObj ?R]> f) => exists m, f, r, h, R
        end.
        simpl. rewrite Hf3.
        repeat split; try done; intros; simplify_eq; by lk. }
    rewrite (getpath_files _ _ _ Hf3). paths. lk. simpl. paths. lk. simpl.
    intros Heq; simplify_eq; unfold Concl. right.
    match type of Hf3 with
    | _ = Some (<[q := JObj ?R]> f) => exists m, f, r, h, R
    end.
    simpl. rewrite Hf3.
    repeat split; try done; intros; simplify_eq; try by lk.
    exists e, cnt. rewrite Hcmp. repeat split; try done; by lk.
  - destruct (_save_database _) as [os s3] eqn:Hsave.
    apply save_database_files in Hsave as Hf3. simpl in Hf3.
    rewrite lookup_insert_eq in Hf3.
    destruct os as [b|e']; step.
    2:{ intros Heq; simplify_eq; unfold Concl. right.
        match type of Hf3 with
        | _ = Some (<[q := JObj ?R]> f) => exists m, f, r, h, R
        end.
        simpl. rewrite Hf3.
        repeat split; try done; intros; simplify_eq; by lk. }
    rewrite (getpath_files _ _ _ Hf3). paths. lk. simpl. lk. simpl.
    rewrite Hhash. simpl. step.
    rewrite (getpath_files _ _ _ Hf3). paths. lk. simpl. paths. lk. simpl.
    intros Heq; simplify_eq; unfold Concl. right.
    match type of Hf3 with
    | _ = Some (<[q := JObj ?R]> f) => exists m, f, r, h, R
    end.
    simpl. rewrite Hf3.
    repeat split; try done; intros; simplify_eq; try by lk.
    exists e, cnt. rewrite Hcmp. repeat split; try done; by lk.
Qed.

Lemma no_hash_no_verdict s q :
  (forall r, record_at (database s) q = Some r -> hash_now s q r = None) ->
  verdict s q = None.
Proof.
  intros H. unfold verdict.
  destruct (record_at (database s) q) as [r|]; [|done].
  by rewrite (H r eq_refl).
Qed.

Lemma str_eq_true h e : str_eq h e = true <-> e = JStr h.
Proof.
  unfold str_eq, is_str. destruct e; try (split; intros; by simplify_eq).
  rewrite bool_decide_eq_true. split; intros; by simplify_eq.
Qed.

Lemma record_at_files db f q :
  files_of db = Some f ->
  record_at db q = match f !! q with Some (JObj r) => Some r | _ => None end.
Proof. unfold record_at. by intros ->. Qed.

(** What one call does to a field of the record of any path [q]. *)
Lemma verify_file_field p s o s1 q k :
  verify_file p s = (o, s1) ->
  (abspath p <> q \/
   (verdict s (abspath p) = None /\ k <> "last_checked" /\ k <> "check_count")
   \/ (verdict s (abspath p) = Some true /\ k = "tampered_date")) ->
  field_at (database s1) q k = field_at (database s) q k.
Proof.
  intros H Hcase. apply verify_file_inv in H as [H|H].
  { destruct H as (_ & -> & _). done. }
  destruct H as (m & f & r & h & r' & Hdb & Hm & Hf & Hh & Hf1 & Hk & Hnone
                 & Htrue & _).
  unfold field_at. rewrite (record_at_files _ _ q Hf1).
  rewrite (record_at_files (database s) f q) by (by rewrite Hdb; simpl; rewrite Hm).
  destruct (decide (abspath p = q)) as [<-|Hne].
  - rewrite lookup_insert_eq, Hf.
    destruct Hcase as [?|[(Hv & Hk1 & Hk2)|(Hv & ->)]]; [done| |by apply Htrue].
    destruct (Hnone Hv) as [Hs Ht].
    destruct (decide (k = "status")) as [->|?]; [done|].
    destruct (decide (k = "tampered_date")) as [->|?]; [done|].
    by apply Hk.
  - by rewrite lookup_insert_ne.
Qed.

(** What a returning call that compared digests does to the status. *)
Lemma verify_file_status p s x s1 b :
  verify_file p s = (Return x, s1) ->
  verdict s (abspath p) = Some b ->
  field_at (database s1) (abspath p) "status"
  = Some (JStr (if b then "verified" else "tampered")).
Proof.
  intros H Hv. apply verify_file_inv in H as [H|H].
  { destruct H as (Hnone & _). apply no_hash_no_verdict in Hnone. congruence. }
  destruct H as (m & f & r & h & r' & Hdb & Hm & Hf & Hh & Hf1 & _ & _ & _ & _
                 & Hret).
  destruct x as [st info].
  destruct (Hret st info eq_refl) as (e & n & He & _ & _ & -> & Hst & _).
  rewrite (verdict_located s _ m f r Hdb Hm Hf), Hh, He in Hv.
  injection Hv as <-.
  unfold field_at. rewrite (record_at_files _ _ _ Hf1), lookup_insert_eq.
  rewrite Hst. by destruct (str_eq h e).
Qed.

Lemma run_no_check s tr s' q :
  run s tr s' -> last_check q tr = None ->
  field_at (database s') q "status" = field_at (database s) q "status".
Proof.
  induction 1 as [s|s p o s1 tr s' Hcall Hrun IH|s fs' faults' tr s' Hrun IH];
    intros Hlast; [done| |by rewrite IH].
  simpl in Hlast. destruct (last_check q tr); [done|].
  rewrite IH by done.
  eapply verify_file_field; [done|].
  case_bool_decide as Hq; [|by left].
  right; left. by destruct (verdict s (abspath p)).
Qed.

(** C2: after any sequence of verifications, the status of a record is
    "tampered" exactly when the most recent verification of its path that
    computed a current hash (and returned) found it different from the
    stored hash; when that verification found them equal the status is
    "verified" again. *)
Theorem status_follows_last_check s tr s' q b x :
  run s tr s' ->
  last_check q tr = Some (b, Return x) ->
  (field_at (database s') q "status" = Some (JStr "tampered") <-> b = false)
  /\ (b = true -> field_at (database s') q "status" = Some (JStr "verified")).
Proof.
  intros Hrun Hlast.
  assert (Hst : field_at (database s') q "status"
                = Some (JStr (if b then "verified" else "tampered"))).
  { revert Hlast.
    induction Hrun as [s|s p o s1 tr s' Hcall Hrun IH|s fs' faults' tr s' Hrun IH];
      intros Hlast; [done| |by apply IH].
    simpl in Hlast.
    destruct (last_check q tr) as [y|] eqn:Hrest.
    { apply IH. congruence. }
    case_bool_decide as Hq; [|done].
    destruct (verdict s (abspath p)) as [b'|] eqn:Hv; [|done].
    simplify_eq. rewrite (run_no_check _ _ _ _ Hrun Hrest).
    by eapply verify_file_status. }
  rewrite Hst. by destruct b.
Qed.

(** C3: a call of verify that computes a current hash (and so answers
    "verified" or "tampered") leaves the check_count of the record one
    higher (a record without the field counts as 0); a call that answers
    "unknown", "missing" or "error" computed no hash and leaves the whole
    database as it was. *)
Theorem verify_file_check_count p s st info s' :
  verify_file p s = (Return (st, info), s') ->
  ((exists r h, record_at (database s) (abspath p) = Some r /\
                hash_now s (abspath p) r = Some h)
   <-> (st = "verified" \/ st = "tampered"))
  /\ (st = "verified" \/ st = "tampered" ->
      exists r n,
        record_at (database s) (abspath p) = Some r /\
        int_value (default (JNum 0) (r !! "check_count")) = Some n /\
        field_at (database s') (abspath p) "check_count" = Some (JNum (n + 1)))
  /\ (st = "unknown" \/ st = "missing" \/ st = "error" ->
      database s' = database s).
Proof.
  intros H. apply verify_file_inv in H as [H|H].
  - destruct H as (Hnone & Hdb & _ & Hst).
    specialize (Hst st info eq_refl).
    split; [split|split]; try done.
    + intros (r & h & Hr & Hh). rewrite (Hnone r Hr) in Hh. done.
    + intros [->| ->]; by destruct Hst as [?|[?|?]].
    + intros [->| ->]; by destruct Hst as [?|[?|?]].
  - destruct H as (m & f & r & h & r' & Hdb & Hm & Hf & Hh & Hf1 & _ & _ & _ & _
                   & Hret).
    destruct (Hret st info eq_refl) as (e & n & He & Hn & Hc & -> & _).
    assert (Hr : record_at (database s) (abspath p) = Some r).
    { rewrite (record_at_files _ f) by (by rewrite Hdb; simpl; rewrite Hm).
      by rewrite Hf. }
    split; [split|split].
    + intros _. destruct (str_eq h e); auto.
    + eauto.
    + intros _. exists r, n. repeat split; try done.
      unfold field_at. by rewrite (record_at_files _ _ _ Hf1), lookup_insert_eq.
    + destruct (str_eq h e); by intros [?|[?|?]].
Qed.

Lemma verify_file_keeps_tampered_date p s o s1 q t :
  verify_file p s = (o, s1) ->
  field_at (database s) q "tampered_date" = Some t ->
  is_Some (field_at (database s1) q "tampered_date") /\
  ((abspath p = q -> verdict s q <> Some false) ->
   field_at (database s1) q "tampered_date" = Some t).
Proof.
  intros H Ht. split.
  - destruct (decide (abspath p = q)) as [<-|Hne].
    2:{ rewrite (verify_file_field _ _ _ _ q _ H) by (by left). by rewrite Ht. }
    apply verify_file_inv in H as [H|H].
    { destruct H as (_ & -> & _). by rewrite Ht. }
    destruct H as (m & f & r & h & r' & Hdb & Hm & Hf & Hh & Hf1 & _ & _ & _
                   & Hkeep & _).
    unfold field_at in *.
    rewrite (record_at_files _ _ _ Hf1), lookup_insert_eq.
    rewrite (record_at_files (database s) f) in Ht
      by (by rewrite Hdb; simpl; rewrite Hm).
    rewrite Hf in Ht. apply Hkeep. by rewrite Ht.
  - intros Hno. rewrite <- Ht. eapply verify_file_field; [done|].
    destruct (decide (abspath p = q)) as [<-|Hne]; [|by left].
    right. specialize (Hno eq_refl).
    destruct (verdict s (abspath p)) as [[]|]; [by right|done|by left].
Qed.

(** C4: once the record of a path carries a tampered_date, no sequence of
    verify calls, however they end, removes the field; and it keeps its
    value unless a later call on that path finds a mismatch again. *)
Theorem tampered_date_is_kept s tr s' q t :
  run s tr s' ->
  field_at (database s) q "tampered_date" = Some t ->
  is_Some (field_at (database s') q "tampered_date") /\
  (Forall (fun c => call_path c = q -> call_verdict c <> Some false) tr ->
   field_at (database s') q "tampered_date" = Some t).
Proof.
  intros Hrun. revert t.
  induction Hrun as [s|s p o s1 tr s' Hcall Hrun IH|s fs' faults' tr s' Hrun IH];
    intros t Ht.
  - split; [by rewrite Ht|done].
  - destruct (verify_file_keeps_tampered_date _ _ _ _ _ _ Hcall Ht)
      as [[t1 Ht1] Hsame].
    split; [by apply (IH t1)|].
    intros Hall. apply Forall_cons in Hall as [Hhead Htail]. simpl in Hhead.
    apply IH; [|done]. apply Hsame. intros <-. by apply Hhead.
  - by apply IH.
Qed.

(** C8: a verification that computes a digest does so with the algorithm
    named in the record, and with "sha256" only when the record has no
    algorithm field; the digest it reports and compares with the stored
    hash is the one of that algorithm. *)
Theorem verify_file_uses_recorded_algorithm p s st info s' r :
  verify_file p s = (Return (st, info), s') ->
  record_at (database s) (abspath p) = Some r ->
  st = "verified" \/ st = "tampered" ->
  exists alg hexdigest d,
    (r !! "algorithm" = Some (JStr alg)
     \/ (r !! "algorithm" = None /\ alg = "sha256")) /\
    hashlib_new alg = FixedLen hexdigest /\
    fs s !! abspath p = Some (File true d) /\
    (st = "verified" <-> r !! "hash" = Some (JStr (hexdigest d))) /\
    getitem info (if bool_decide (st = "verified") then "hash"
                  else "current_hash")
    = Return (JStr (hexdigest d)).
Proof.
  intros H Hr Hst. apply verify_file_inv in H as [H|H].
  { destruct H as (_ & _ & _ & H). specialize (H st info eq_refl).
    destruct Hst as [->| ->]; by destruct H as [?|[?|?]]. }
  destruct H as (m & f & r0 & h & r' & Hdb & Hm & Hf & Hh & Hf1 & _ & _ & _ & _
                 & Hret).
  rewrite (record_at_files _ f) in Hr by (by rewrite Hdb; simpl; rewrite Hm).
  rewrite Hf in Hr. injection Hr as ->.
  destruct (Hret st info eq_refl) as (e & n & He & _ & _ & -> & _ & Hinfo).
  apply hash_now_inv in Hh as (_ & alg & hexdigest & d & Halg & Hnew & Hd & ->).
  exists alg, hexdigest, d. repeat split; try done.
  - unfold recorded_algorithm in Halg.
    destruct (r !! "algorithm") as [a|]; simpl in Halg; simplify_eq; auto.
  - destruct (str_eq (hexdigest d) e) eqn:Heq; [|done].
    intros _. apply str_eq_true in Heq. by rewrite He, Heq.
  - rewrite He. intros [= ->].
    by rewrite (proj2 (str_eq_true (hexdigest d) _) eq_refl).
  - by destruct (str_eq (hexdigest d) e).
Qed.

(** ** Adding *)

Lemma setpath2_Return db a k x db' :
  setpath db [a; k] x = Return db' ->
  exists m inner,
    db = JObj m /\ m !! a = Some (JObj inner) /\
    db' = JObj (<[a := JObj (<[k := x]> inner)]> m).
Proof.
  rewrite setpath_cons.
  destruct db as [| | | | |m]; simpl; try done.
  destruct (m !! a) as [v|] eqn:Ha; simpl; try done.
  rewrite setpath_one.
  destruct v as [| | | | |inner]; simpl; try done.
  intros [= <-]. eauto.
Qed.

(** C10: whenever add_file writes the record of a path, whatever was
    recorded for the path before, the record names the algorithm "sha256"
    and holds the SHA-256 digest of the file; add_file has no parameter to
    choose another algorithm. *)
Theorem add_file_records_sha256 p d s o s' :
  add_file p d s = (o, s') ->
  let written :=
    exists r hexdigest data,
      record_at (database s') (abspath p) = Some r /\
      r !! "algorithm" = Some (JStr "sha256") /\
      hashlib_new "sha256" = FixedLen hexdigest /\
      fs s !! abspath p = Some (File true data) /\
      r !! "hash" = Some (JStr (hexdigest data)) in
  (o = Return true -> written) /\ (database s' = database s \/ written).
Proof.
  intros H. revert H. set (q := abspath p).
  destruct s as [path db fs0 fl tk out].
  unfold add_file. fold q. step.
  destruct (fs0 !! q) as [n|] eqn:Hn; step.
  2:{ intros [= <- <-]. simpl. split; [done|by left]. }
  destruct (calculate_file_hash q (JStr "sha256") _) as [[[h|]|e] s1] eqn:Hcalc;
    pose proof (calculate_file_hash_inv _ _ _ _ _ Hcalc)
      as (Hdb1 & _ & _ & _ & _ & Hsome); simpl in Hdb1.
  2,3: step; intros [= <- <-]; split; [done|by left].
  destruct (Hsome h eq_refl) as [-> (a & hexdigest & data & Ha & Hnew & Hd & ->)].
  injection Ha as <-. simpl in Hd. clear Hsome Hdb1 Hcalc.
  step. unfold os_stat_size. simpl. rewrite Hn. step.
  destruct (setpath db _ _) as [db'|e] eqn:Hset; step.
  2:{ intros [= <- <-]. simpl. split; [done|by left]. }
  apply setpath2_Return in Hset as (m & f & -> & Hm & ->).
  destruct (_save_database _) as [os s3] eqn:Hsave.
  apply save_database_files in Hsave as Hf3. simpl in Hf3.
  rewrite lookup_insert_eq in Hf3.
  intros [= <- <-].
  assert (Hw : exists r hexdigest0 data0,
             record_at (database s3) q = Some r /\
             r !! "algorithm" = Some (JStr "sha256") /\
             hashlib_new "sha256" = FixedLen hexdigest0 /\
             fs0 !! q = Some (File true data0) /\
             r !! "hash" = Some (JStr (hexdigest0 data0))).
  { rewrite (record_at_files _ _ _ Hf3), lookup_insert_eq. unfold dict.
    eexists _, hexdigest, data. split; [done|].
    repeat split; try done. }
  rewrite <- Hn. simpl. split; [done|by right].
Qed.

(** ** Saving a store that has its metadata *)

Lemma save_database_store s m md :
  database s = JObj m -> m !! "metadata" = Some (JObj md) ->
  exists s',
    _save_database s = (Return (writable s (database_path s)), s') /\
    database s'
    = JObj (<["metadata" :=
                JObj (<["last_updated" := JStr (isoformat_now (ticks s))]> md)]> m) /\
    database_path s' = database_path s /\
    if writable s (database_path s)
    then (exists r, fs s' = <[database_path s := File r (Doc (database s'))]> (fs s))
         /\ stdout s' = stdout s
    else (fs s' = fs s \/
          exists r, fs s' = <[database_path s := File r (Text EmptyString)]> (fs s))
         /\ stdout s' = stdout s ++ [ErrSave IOError].
Proof.
  intros Hdb Hmd.
  destruct (_save_database s) as [o s'] eqn:Hsave. exists s'.
  apply save_database_inv in Hsave as (Hp & _ & Hcases).
  assert (Hset : setpath (database s) ["metadata"; "last_updated"]
                   (JStr (isoformat_now (ticks s)))
                 = Return (JObj (<["metadata" :=
                     JObj (<["last_updated" := JStr (isoformat_now (ticks s))]> md)]> m))).
  { rewrite Hdb, setpath_cons. simpl. rewrite Hmd. simpl.
    by rewrite ?setpath_one. }
  destruct Hcases as [(e & _ & _ & Hraise & _)|(db' & Hret & Hdb' & Hw)];
    [congruence|].
  rewrite Hset in Hret. injection Hret as <-.
  destruct Hw as [(-> & -> & Hfs & Hout)|(-> & -> & Hfs & Hout)];
    repeat split; try done.
  destruct Hfs as [r Hfs]. exists r. by rewrite Hdb'.
Qed.

(** A write that fails after [open] has truncated the file leaves the
    database file empty: the store persisted before is lost although the
    save reports failure. *)
Lemma save_database_torn s m md r d :
  database s = JObj m -> m !! "metadata" = Some (JObj md) ->
  fs s !! database_path s = Some (File r d) ->
  faults s !! database_path s = Some Torn ->
  exists s',
    _save_database s = (Return false, s') /\
    fs s' !! database_path s = Some (File r (Text EmptyString)).
Proof.
  intros Hdb Hmd Hfile Hfault.
  destruct s as [path db fs0 fl tk out]. simpl in *. subst db.
  unfold _save_database, try_except, open_write_dump. step.
  rewrite setpath_cons. simpl. rewrite Hmd. simpl. rewrite ?setpath_one.
  step. rewrite Hfile, Hfault. step.
  eexists. split; [done|]. simpl. by rewrite lookup_insert_eq.
Qed.

(** ** Removing *)


(** ** Loading *)

Lemma load_database_missing path s :
  fs s !! path = None ->
  __init__ path s
  = (Return tt,
     mkState path (fresh_store (isoformat_now (ticks s))) (fs s) (faults s)
             (S (ticks s)) (stdout s)).
Proof.
  intros Hn. destruct s as [p0 db fs0 fl tk out]. simpl in *.
  unfold __init__, _load_database, with_database_path. step.
  rewrite Hn. by step.
Qed.

Lemma load_database_not_json path s r txt :
  fs s !! path = Some (File r (Text txt)) ->
  exists e,
    __init__ path s
    = (Return tt,
       mkState path (fresh_store (isoformat_now (ticks s))) (fs s) (faults s)
               (S (ticks s)) (stdout s ++ [WarnLoad e])).
Proof.
  intros Hn. destruct s as [p0 db fs0 fl tk out]. simpl in *.
  unfold __init__, _load_database, with_database_path, try_except, open_read.
  step. rewrite Hn. step. rewrite Hn.
  destruct r; step; eauto.
Qed.

(** C7, where the code departs from it: a database file whose bytes are
    not valid UTF-8 makes the load raise UnicodeDecodeError, which the
    handler for JSONDecodeError and IOError does not catch; no warning is
    printed and no store is returned. *)
Theorem load_database_undecodable path s bs :
  fs s !! path = Some (File true (Binary bs)) ->
  __init__ path s = (Raise UnicodeDecodeError, with_database_path s path).
Proof.
  intros Hn. destruct s as [p0 db fs0 fl tk out]. simpl in *.
  unfold __init__, _load_database, with_database_path, try_except, open_read.
  step. rewrite Hn. step. rewrite Hn. by step.
Qed.

(** ** Export and import *)

Lemma export_database_inv e s s2 :
  export_database e s = (Return true, s2) ->
  exists r,
    s2 = with_fs s (<[e := File r (Doc (database s))]> (fs s)) /\
    (r = true \/ exists d, fs s !! e = Some (File false d)).
Proof.
  destruct s as [p0 db fs0 fl tk out].
  unfold export_database, try_except, open_write_dump. step.
  destruct (fs0 !! e) as [[|[] d]|] eqn:Hn, (fl !! e) as [[|]|] eqn:Hf;
    step; intros [= <-]; eauto 10.
Qed.

Lemma import_database_replace e s v :
  fs s !! e = Some (File true (Doc v)) ->
  import_database e false s = _save_database (with_database s v).
Proof.
  intros He. destruct s as [p0 db fs0 fl tk out]. simpl in *.
  unfold import_database, try_except, open_read. step. rewrite He. step.
  destruct (_save_database _) as [[b|ex] s'] eqn:Hsave; [done|].
  apply save_database_inv in Hsave as (_ & _ & [H|H]).
  - destruct H as (x & Hx & _ & Hraise & _). injection Hx as <-.
    by apply setpath_Raise in Hraise as [-> | ->].
  - by destruct H as (? & _ & _ & [(? & _)|(? & _)]).
Qed.

(** C5: after a store is exported to a file, a checker created on a
    database path that does not exist starts from the empty store, and
    importing the exported file into it without merging yields the
    exported files mapping, entry for entry; the import succeeds and is on
    disk whenever the exported store has its metadata and the new database
    path can be written. *)
Theorem export_import_roundtrip e path2 s s2 :
  export_database e s = (Return true, s2) ->
  (forall d, fs s !! e <> Some (File false d)) ->
  fs s2 !! path2 = None ->
  exists s3,
    __init__ path2 s2 = (Return tt, s3) /\
    files_of (database s3) = Some ∅ /\
    forall o s4,
      import_database e false s3 = (o, s4) ->
      files_of (database s4) = files_of (database s) /\
      (is_Some (metadata_of (database s)) -> o = Return (writable s3 path2)) /\
      (o = Return true ->
       exists r, fs s4 !! path2 = Some (File r (Doc (database s4)))).
Proof.
  intros Hexp Hread Hfresh.
  apply export_database_inv in Hexp as (r & -> & Hr).
  destruct Hr as [->|[d Hd]]; [|by destruct (Hread d)].
  eexists. split; [by apply load_database_missing|].
  split; [done|]. intros o s4. simpl.
  rewrite (import_database_replace _ _ (database s))
    by (simpl; by rewrite lookup_insert_eq).
  intros Hsave. split; [|split].
  - by apply save_database_files in Hsave.
  - intros [md Hmd]. unfold metadata_of in Hmd.
    destruct (database s) as [| | | | |m] eqn:Hdb; try done.
    destruct (m !! "metadata") as [[| | | | |md']|] eqn:Hm; try done.
    edestruct (save_database_store) as (s' & Hs' & _); [| |rewrite Hs' in Hsave].
    3: by injection Hsave as <- _.
    all: simpl; done.
  - intros ->. apply save_database_inv in Hsave as (_ & _ & [H|H]).
    + by destruct H as (? & ? & _).
    + destruct H as (db' & _ & <- & [(_ & _ & [r' ->] & _)|(? & _)]); [|done].
      simpl. exists r'. by rewrite lookup_insert_eq.
Qed.

(** C6: importing the store I with merge into the store D gives the files
    mapping in which every path of I has its record from I and every other
    path keeps its record from D; the merge touches nothing else, so the
    rest of D, its metadata included, is as before but for the
    last_updated stamp that the save which follows writes. *)
Theorem import_merge_files e s m fd imp fi o s' :
  fs s !! e = Some (File true (Doc imp)) ->
  database s = JObj m -> m !! "files" = Some (JObj fd) ->
  files_of imp = Some fi ->
  import_database e true s = (o, s') ->
  exists m',
    database s' = JObj m' /\
    m' !! "files" = Some (JObj (fi ∪ fd)) /\
    (forall q r, fi !! q = Some r -> (fi ∪ fd) !! q = Some r) /\
    (forall q, fi !! q = None -> (fi ∪ fd) !! q = fd !! q) /\
    (forall k, k <> "files" -> k <> "metadata" -> m' !! k = m !! k) /\
    (m' !! "metadata" = m !! "metadata" \/
     exists md t,
       m !! "metadata" = Some (JObj md) /\
       m' !! "metadata" = Some (JObj (<["last_updated" := JStr t]> md))).
Proof.
  intros He Hdb Hfd Hfi.
  destruct s as [p0 db fs0 fl tk out]. simpl in *. subst db.
  unfold files_of in Hfi.
  destruct imp as [| | | | |mi]; try done.
  destruct (mi !! "files") as [[| | | | |fi']|] eqn:Hmi; try done.
  injection Hfi as ->.
  unfold import_database, try_except, open_read. step. rewrite He. step.
  paths. rewrite Hfd. simpl. rewrite Hmi. step. paths.
  destruct (_save_database _) as [os s1] eqn:Hsave.
  assert (Hs1 : exists m',
    database s1 = JObj m' /\
    m' !! "files" = Some (JObj (fi ∪ fd)) /\
    (forall k, k <> "files" -> k <> "metadata" -> m' !! k = m !! k) /\
    (m' !! "metadata" = m !! "metadata" \/
     exists md t,
       m !! "metadata" = Some (JObj md) /\
       m' !! "metadata" = Some (JObj (<["last_updated" := JStr t]> md)))).
  { apply save_database_inv in Hsave as (_ & _ & [H|H]).
    - destruct H as (x & _ & _ & _ & -> & _). simpl.
      eexists. split; [done|]. rewrite lookup_insert_eq.
      split; [done|]. split; [|left; by rewrite lookup_insert_ne].
      intros k Hk _. by rewrite lookup_insert_ne.
    - destruct H as (db' & Hset & -> & _). simpl in Hset.
      apply setpath2_Return in Hset as (m0 & md & [= <-] & Hmd & ->).
      rewrite lookup_insert_ne in Hmd by done.
      eexists. split; [done|].
      rewrite lookup_insert_ne by done. rewrite lookup_insert_eq.
      split; [done|]. split.
      + intros k Hk1 Hk2. by rewrite !lookup_insert_ne.
      + right. exists md, (isoformat_now tk). by rewrite lookup_insert_eq. }
  destruct Hs1 as (m' & Hdb' & Hfiles' & Hother & Hmeta).
  intros H.
  assert (Hfinal : database s' = database s1).
  { destruct os as [b|ex]; simpl in H; [by injection H as _ <-|].
    revert H. destruct (is_JSONDecodeError ex || is_IOError ex); step;
      by intros [= _ <-]. }
  exists m'. rewrite Hfinal. repeat split; try done.
  - intros q r Hq. by apply lookup_union_Some_l.
  - intros q Hq. by rewrite lookup_union_r.
Qed.

(** ** A failed save during verification *)

(** C1, where the code departs from it: when the record of the path can
    be checked but the store cannot be written, verify_file still answers
    "verified" (or "tampered"): the save prints its error, the count is
    raised in memory only, and nothing of it reaches the disk. *)
Theorem verify_file_ignores_failed_save p s m f r md h e n :
  database s = JObj m -> m !! "files" = Some (JObj f) ->
  f !! abspath p = Some (JObj r) ->
  m !! "metadata" = Some (JObj md) ->
  hash_now s (abspath p) r = Some h ->
  r !! "hash" = Some e ->
  int_value (default (JNum 0) (r !! "check_count")) = Some n ->
  writable s (database_path s) = false ->
  exists info s',
    verify_file p s
    = (Return (if str_eq h e then "verified" else "tampered", info), s') /\
    field_at (database s') (abspath p) "check_count" = Some (JNum (n + 1)) /\
    (fs s' = fs s \/
     exists rd, fs s' = <[database_path s := File rd (Text EmptyString)]> (fs s)) /\
    stdout s' = stdout s ++ [ErrSave IOError].
Proof.
  set (q := abspath p). intros Hdb Hfiles Hq Hmd Hh Hhash Hn Hw.
  apply hash_now_inv in Hh as (Hcalc & _ & _ & d & _ & _ & Hd & _).
  destruct s as [path db fs0 fl tk out]. simpl in *. subst db.
  assert (Hadd : add1 match r !! "check_count" with
                      | Some x => x
                      | None => JNum 0
                      end = Return (JNum (n + 1))).
  { destruct (r !! "check_count") as [[]|]; simpl in *; by simplify_eq. }
  unfold verify_file. fold q. step. paths. rewrite Hfiles. simpl.
  rewrite Hq. step. rewrite Hd. step. paths. rewrite Hfiles. simpl. paths.
  rewrite Hq. simpl. step.
  change (match r !! "algorithm" with Some x => x | None => JStr "sha256" end)
    with (recorded_algorithm r).
  rewrite Hcalc. rewrite (put_record_id m f q r Hfiles Hq).
  repeat (progress (step; rewrite ?setpath_put_record, ?getpath_put_record,
                      ?getpath_nil; simpl)).
  lk. rewrite Hadd.
  repeat (progress (step; rewrite ?setpath_put_record, ?getpath_put_record,
                      ?getpath_nil; simpl)).
  lk. rewrite Hhash. step.
  destruct (str_eq h e);
    repeat (progress (step; rewrite ?setpath_put_record, ?getpath_put_record,
                        ?getpath_nil; simpl)).
  all: match goal with
       | |- context [_save_database ?st] =>
           destruct (save_database_store st _ md eq_refl)
             as (s' & Hsave & Hdb' & _ & Hres);
             [by rewrite lookup_insert_ne|]
       end.
  all: unfold writable in Hsave, Hres, Hw; simpl in Hsave, Hres, Hw;
       rewrite Hw in Hsave, Hres;
       destruct Hres as [Hfs Hout];
       rewrite Hsave; step; rewrite Hdb';
       repeat (progress (paths; lk; simpl)).
  all: try (rewrite Hhash; step; rewrite Hdb';
            repeat (progress (paths; lk; simpl))).
  all: eexists _, s'; split; [done|]; split; [|by split];
       unfold field_at, record_at, files_of; rewrite Hdb'; by lk.
Qed.

(** * Further properties of the methods *)

(** ** Verification of a record that can be checked *)




(** ** Verification without a record or without the file *)

Lemma verify_file_no_record p s f :
  files_of (database s) = Some f -> f !! abspath p = None ->
  verify_file p s
  = (Return ("unknown", dict [("message", JStr "File not in database")]), s).
Proof.
  intros Hf Hq. destruct s as [path db fs0 fl tk out]. simpl in *.
  destruct db as [| | | | |m]; try done. simpl in Hf.
  destruct (m !! "files") as [[| | | | |f']|] eqn:Hfiles; try done.
  injection Hf as ->.
  unfold verify_file. step. paths. rewrite Hfiles. simpl. rewrite Hq. by step.
Qed.

(** X2: for a path that has no record, and for a path whose record is
    there but whose file is gone, verify_file answers "unknown" and
    "missing": nothing is computed, counted, stamped, printed or saved,
    and no record is created. *)
Theorem verify_file_unknown_or_missing p s f :
  files_of (database s) = Some f ->
  (f !! abspath p = None ->
   verify_file p s
   = (Return ("unknown", dict [("message", JStr "File not in database")]),
      s)) /\
  (is_Some (f !! abspath p) -> fs s !! abspath p = None ->
   verify_file p s
   = (Return ("missing", dict [("message", JStr "File no longer exists")]),
      s)).
Proof.
  intros Hf. split; [by apply verify_file_no_record|].
  intros [rec Hq] Hgone. destruct s as [path db fs0 fl tk out]. simpl in *.
  destruct db as [| | | | |m]; try done. simpl in Hf.
  destruct (m !! "files") as [[| | | | |f']|] eqn:Hfiles; try done.
  injection Hf as ->.
  unfold verify_file. step. paths. rewrite Hfiles. simpl. rewrite Hq. step.
  rewrite Hgone. by step.
Qed.

Lemma same_baseline_refl s : same_baseline s s.
Proof. by split. Qed.

Lemma same_baseline_trans s1 s2 s3 :
  same_baseline s1 s2 -> same_baseline s2 s3 -> same_baseline s1 s3.
Proof.
  intros [Hd1 Hf1] [Hd2 Hf2]. split; [by rewrite Hd2|].
  intros q k Hk. by rewrite Hf2, Hf1.
Qed.

Lemma verify_file_frame p s o s' :
  verify_file p s = (o, s') -> same_baseline s s'.
Proof.
  intros H. apply verify_file_inv in H as [H|H].
  { destruct H as (_ & Hdb & _). unfold same_baseline. by rewrite Hdb. }
  destruct H as (m & f & r & h & r' & Hdb & Hm & Hf & _ & Hf1 & Hk & _).
  assert (Hf0 : files_of (database s) = Some f)
    by (by rewrite Hdb; simpl; rewrite Hm).
  unfold same_baseline. rewrite Hf1, Hf0. split.
  - simpl. f_equal. apply dom_insert_lookup_L. by rewrite Hf.
  - intros q k Hck. unfold field_at.
    rewrite (record_at_files _ _ q Hf1), (record_at_files _ _ q Hf0).
    destruct (decide (abspath p = q)) as [<-|Hne].
    + rewrite lookup_insert_eq, Hf.
      apply Hk; intros ->; apply Hck; unfold check_field; auto.
    + by rewrite lookup_insert_ne.
Qed.

(** X3: whatever its outcome, verify_file neither adds nor removes a
    record, and in every record it leaves alone all fields other than
    last_checked, check_count, status and tampered_date: the stored hash
    and algorithm are never replaced by a verification. *)
Theorem verify_file_keeps_baseline p s o s' :
  verify_file p s = (o, s') ->
  dom <$> files_of (database s') = dom <$> files_of (database s) /\
  forall q k,
    k <> "last_checked" -> k <> "check_count" -> k <> "status" ->
    k <> "tampered_date" ->
    field_at (database s') q k = field_at (database s) q k.
Proof.
  intros H. apply verify_file_frame in H as [Hdom Hfields].
  split; [exact Hdom|]. intros q k H1 H2 H3 H4. apply Hfields.
  by intros [?|[?|[?|?]]].
Qed.

(** ** Removal, then verification *)

Lemma remove_file_files p s f o s' :
  files_of (database s) = Some f ->
  remove_file p s = (o, s') ->
  files_of (database s') = Some (delete (abspath p) f).
Proof.
  set (q := abspath p).
  destruct s as [path db fs0 fl tk out]. simpl.
  destruct db as [| | | | |m]; simpl; try done.
  destruct (m !! "files") as [[| | | | |f']|] eqn:Hfiles; try done.
  intros [= ->]. unfold remove_file. fold q. step. paths.
  rewrite Hfiles. simpl.
  destruct (f !! q) as [rec|] eqn:Hrec; step.
  2:{ intros [= <- <-]. simpl. rewrite Hfiles. by rewrite delete_id. }
  paths. rewrite Hfiles. simpl. rewrite Hrec. simpl. step. paths.
  intros Hsave. apply save_database_files in Hsave as ->. simpl.
  by rewrite lookup_insert_eq.
Qed.

(** X4: after remove_file, however its save ended, verify_file answers
    "unknown" for the path. *)
Theorem remove_file_then_verify p s f o s1 :
  files_of (database s) = Some f ->
  remove_file p s = (o, s1) ->
  verify_file p s1
  = (Return ("unknown", dict [("message", JStr "File not in database")]),
     s1).
Proof.
  intros Hf Hrm.
  apply (verify_file_no_record p s1 (delete (abspath p) f)).
  - by eapply remove_file_files.
  - apply lookup_delete_eq.
Qed.

(** ** Adding *)


(** X5: when the file does not exist, is a directory or cannot be read,
    add_file answers False and leaves the database, the disk and the
    clock as they were: no record is created or replaced. *)
Theorem add_file_refuses p d s :
  (forall data, fs s !! abspath p <> Some (File true data)) ->
  exists out,
    add_file p d s
    = (Return false,
       mkState (database_path s) (database s) (fs s) (faults s) (ticks s)
               (stdout s ++ out)).
Proof.
  set (q := abspath p). intros Hd.
  destruct s as [path db fs0 fl tk out]. simpl in *.
  unfold add_file, calculate_file_hash, try_except, open_read.
  fold q. step.
  destruct (fs0 !! q) as [[|[] data]|] eqn:Hq; step.
  - destruct (hashlib_new "sha256"); step; rewrite ?Hq; step; eauto.
  - by destruct (Hd data).
  - destruct (hashlib_new "sha256"); step; rewrite ?Hq; step; eauto.
  - eauto.
Qed.



(** ** Saving, then loading *)

Lemma save_database_true s s' :
  _save_database s = (Return true, s') ->
  exists r,
    s' = mkState (database_path s) (database s')
                 (<[database_path s := File r (Doc (database s'))]> (fs s))
                 (faults s) (S (ticks s)) (stdout s) /\
    (r = true \/ exists d, fs s !! database_path s = Some (File false d)).
Proof.
  destruct s as [path db fs0 fl tk out].
  unfold _save_database, try_except. step.
  destruct (setpath db _ _) as [db'|e] eqn:Hset.
  - step. unfold open_write_dump. simpl.
    destruct (fs0 !! path) as [[|[] d]|] eqn:Hn, (fl !! path) as [[|]|] eqn:Hf;
      step; intros [= <-]; simpl; eauto 10.
  - apply setpath_Raise in Hset as Hne.
    destruct Hne as [-> | ->]; simpl; by intros.
Qed.

(** X8: a save that answers True can be read back: a checker created on
    the same database path afterwards holds exactly the store that was
    saved, with no warning, provided the database file is readable. *)
Theorem save_then_load s s' :
  _save_database s = (Return true, s') ->
  (forall d, fs s !! database_path s <> Some (File false d)) ->
  __init__ (database_path s) s' = (Return tt, s').
Proof.
  intros Hsave Hread.
  apply save_database_true in Hsave as (r & -> & Hr).
  destruct Hr as [->|[d Hd]]; [|by destruct (Hread d)].
  set (db' := database _).
  unfold __init__, _load_database, with_database_path, try_except, open_read.
  step. rewrite lookup_insert_eq. step. rewrite lookup_insert_eq. by step.
Qed.

(** ** Export *)


(** ** Import *)


(** X11: a file to import that is not valid UTF-8 makes import_database
    raise UnicodeDecodeError, with or without merge: the error is neither
    a JSONDecodeError nor an IOError, so it is not reported as a failed
    import. Nothing has been changed by then. *)
Theorem import_database_undecodable e merge s bs :
  fs s !! e = Some (File true (Binary bs)) ->
  import_database e merge s = (Raise UnicodeDecodeError, s).
Proof.
  intros He. destruct s as [path db fs0 fl tk out]. simpl in He.
  unfold import_database, try_except, open_read. step. rewrite He. by step.
Qed.


(** X13: an import without merge of a JSON object that has no metadata
    member raises KeyError out of the save, after the store in memory has
    been replaced by the document: nothing is written and nothing is
    printed, and the records held before are lost from memory. *)
Theorem import_database_without_metadata e s mi :
  fs s !! e = Some (File true (Doc (JObj mi))) ->
  mi !! "metadata" = None ->
  import_database e false s
  = (Raise KeyError,
     mkState (database_path s) (JObj mi) (fs s) (faults s) (S (ticks s))
             (stdout s)).
Proof.
  intros He Hmd. rewrite (import_database_replace e s (JObj mi) He).
  destruct s as [p0 db fs0 fl tk out]. simpl.
  unfold _save_database, try_except. step. rewrite setpath_cons. simpl.
  by rewrite Hmd.
Qed.

Lemma import_merge_result e s fd imp fi o s' :
  fs s !! e = Some (File true (Doc imp)) ->
  files_of (database s) = Some fd ->
  files_of imp = Some fi ->
  import_database e true s = (o, s') ->
  files_of (database s') = Some (fi ∪ fd) /\
  database_path s' = database_path s /\
  forall p, p <> database_path s -> fs s' !! p = fs s !! p.
Proof.
  intros He Hfd Hfi.
  destruct s as [p0 db fs0 fl tk out]. simpl in *.
  destruct db as [| | | | |m]; try done. simpl in Hfd.
  destruct (m !! "files") as [[| | | | |fd']|] eqn:Hm; try done.
  injection Hfd as ->.
  unfold files_of in Hfi.
  destruct imp as [| | | | |mi]; try done.
  destruct (mi !! "files") as [[| | | | |fi']|] eqn:Hmi; try done.
  injection Hfi as ->.
  unfold import_database, try_except, open_read. step. rewrite He. step.
  paths. rewrite Hm. simpl. rewrite Hmi. step. paths.
  destruct (_save_database _) as [os s1] eqn:Hsave.
  pose proof (save_database_files _ _ _ Hsave) as Hf1. simpl in Hf1.
  rewrite lookup_insert_eq in Hf1.
  apply save_database_inv in Hsave as (Hp & _ & Hcases). simpl in Hp.
  assert (Hfs : forall p, p <> p0 -> fs s1 !! p = fs0 !! p).
  { intros p Hne.
    destruct Hcases as [(? & _ & _ & _ & _ & -> & _)|(? & _ & _ & Hw)];
      [done|].
    simpl in Hw.
    destruct Hw as [(_ & _ & [r ->] & _)|(_ & _ & [->|[r ->]] & _)];
      try done; by rewrite lookup_insert_ne. }
  intros H.
  assert (Hfinal : database s' = database s1 /\ database_path s' = p0
                   /\ fs s' = fs s1).
  { destruct os as [b|ex]; simpl in H; [by injection H as _ <-|].
    revert H. destruct (is_JSONDecodeError ex || is_IOError ex); step;
      by intros [= _ <-]. }
  destruct Hfinal as (-> & -> & ->). done.
Qed.

(** X14: importing the same file with merge a second time changes no
    record: the files mapping after the second import is the one after
    the first. *)
Theorem import_merge_twice e s fd imp fi o1 s1 o2 s2 :
  fs s !! e = Some (File true (Doc imp)) ->
  files_of (database s) = Some fd ->
  files_of imp = Some fi ->
  e <> database_path s ->
  import_database e true s = (o1, s1) ->
  import_database e true s1 = (o2, s2) ->
  files_of (database s2) = files_of (database s1).
Proof.
  intros He Hfd Hfi Hne H1 H2.
  destruct (import_merge_result _ _ _ _ _ _ _ He Hfd Hfi H1)
    as (Hf1 & Hp1 & Hfs1).
  assert (He1 : fs s1 !! e = Some (File true (Doc imp)))
    by (by rewrite Hfs1).
  destruct (import_merge_result _ _ _ _ _ _ _ He1 Hf1 Hfi H2) as (Hf2 & _).
  rewrite Hf1, Hf2. f_equal.
  by rewrite (assoc_L (∪)), (idemp_L (∪)).
Qed.

(** ** All records at once *)

Lemma verify_each_frame items res s o s' :
  verify_each items res s = (o, s') -> same_baseline s s'.
Proof.
  revert res s. induction items as [|x items IH]; intros res s.
  { intros [= _ <-]. apply same_baseline_refl. }
  destruct x as [| | |file_path| |]; simpl;
    try (intros [= _ <-]; apply same_baseline_refl).
  rewrite bind_eq.
  destruct (verify_file file_path s) as [[r|e] s1] eqn:Hcall.
  - intros Hrest. eapply same_baseline_trans; [|by eapply IH].
    by eapply verify_file_frame.
  - intros [= _ <-]. by eapply verify_file_frame.
Qed.

(** X15: verify_all_files, whether it returns or raises part of the way,
    neither adds nor removes a record and leaves alone, in every record,
    all fields other than last_checked, check_count, status and
    tampered_date. *)
Theorem verify_all_files_keeps_baseline keys s o s' :
  verify_all_files keys s = (o, s') ->
  dom <$> files_of (database s') = dom <$> files_of (database s) /\
  forall q k,
    k <> "last_checked" -> k <> "check_count" -> k <> "status" ->
    k <> "tampered_date" ->
    field_at (database s') q k = field_at (database s) q k.
Proof.
  intros H.
  assert (Hframe : same_baseline s s').
  { revert H. unfold verify_all_files. rewrite bind_eq, read_eq.
    destruct (getpath (database s) ["files"]) as [files|e];
      [|intros [= _ <-]; apply same_baseline_refl].
    rewrite bind_eq. unfold lift.
    destruct (iterate keys files) as [items|e];
      [|intros [= _ <-]; apply same_baseline_refl].
    apply verify_each_frame. }
  destruct Hframe as [Hdom Hfields].
  split; [exact Hdom|]. intros q k H1 H2 H3 H4. apply Hfields.
  by intros [?|[?|[?|?]]].
Qed.

Lemma verify_file_status_word p s st info s' :
  verify_file p s = (Return (st, info), s') ->
  st = "verified" \/ st = "tampered" \/ st = "unknown" \/ st = "missing"
  \/ st = "error".
Proof.
  intros H. apply verify_file_inv in H as [H|H].
  - destruct H as (_ & _ & _ & H). destruct (H st info eq_refl) as [?|[?|?]]; auto.
  - destruct H as (m & f & r & h & r' & _ & _ & _ & _ & _ & _ & _ & _ & _ & H).
    destruct (H st info eq_refl) as (e & n & _ & _ & _ & -> & _).
    destruct (str_eq h e); auto.
Qed.

Lemma verify_each_results items res s results s' :
  verify_each items res s = (Return results, s') ->
  (forall k, is_Some (results !! k) <-> JStr k ∈ items \/ is_Some (res !! k))
  /\ (forall k v, results !! k = Some v ->
        res !! k = Some v \/
        exists st info,
          v = result_entry st info /\
          (st = "verified" \/ st = "tampered" \/ st = "unknown"
           \/ st = "missing" \/ st = "error")).
Proof.
  revert res s. induction items as [|x items IH]; intros res s.
  { simpl. unfold ret. intros ?. simplify_eq. split; [|by left].
    intros k. rewrite elem_of_nil. tauto. }
  destruct x as [| | |file_path| |]; simpl; try done.
  rewrite bind_eq.
  destruct (verify_file file_path s) as [[[st info]|e] s1] eqn:Hcall; [|done].
  intros Hrest. apply IH in Hrest as [Hdom Hval]. simpl in *.
  apply verify_file_status_word in Hcall. split.
  - intros k. rewrite Hdom, elem_of_cons.
    destruct (decide (k = file_path)) as [->|Hne].
    + rewrite lookup_insert_eq. split; [intros _|intros _; right; eauto].
      by left; left.
    + rewrite lookup_insert_ne by done. split.
      * intros [?|?]; [left; by right|by right].
      * intros [[[= ?]|?]|?]; [done|by left|by right].
  - intros k v Hk. destruct (Hval k v Hk) as [Hres|?]; [|by right].
    destruct (decide (k = file_path)) as [->|Hne].
    + rewrite lookup_insert_eq in Hres. injection Hres as <-.
      right. by exists st, info.
    + rewrite lookup_insert_ne in Hres by done. by left.
Qed.

Lemma elem_of_items_in keys m k v :
  (k, v) ∈ items_in keys m <-> k ∈ keys /\ m !! k = Some v.
Proof.
  unfold items_in. rewrite list_elem_of_omap. split.
  - intros (k' & Hin & Hk'). destruct (m !! k') as [v'|] eqn:E; [|done].
    by simplify_eq.
  - intros [Hin Hk]. exists k. by rewrite Hk.
Qed.

(** X16: on a store whose files mapping is a dict, a verify_all_files
    that returns has exactly one entry for every record and none besides,
    and every entry holds a status among "verified", "tampered",
    "unknown", "missing" and "error", with the info of the call. *)
Theorem verify_all_files_results keys s f results s' :
  files_of (database s) = Some f ->
  key_order keys f ->
  verify_all_files keys s = (Return results, s') ->
  (forall k, is_Some (results !! k) <-> is_Some (f !! k)) /\
  forall k v, results !! k = Some v ->
    exists st info,
      v = result_entry st info /\
      (st = "verified" \/ st = "tampered" \/ st = "unknown"
       \/ st = "missing" \/ st = "error").
Proof.
  intros Hf [_ Hkeys].
  unfold verify_all_files. rewrite bind_eq, read_eq, (getpath_files _ _ _ Hf).
  rewrite getpath_nil, bind_eq. unfold lift. simpl.
  intros H. apply verify_each_results in H as [Hdom Hval]. split.
  - intros k. rewrite Hdom, lookup_empty, list_elem_of_fmap. split.
    + intros [([k' v] & [= ->] & Hin)|[? ?]]; [|done].
      apply elem_of_items_in in Hin as [_ Hk]. by rewrite Hk.
    + intros [v Hk]. left. exists (k, v). split; [done|].
      apply elem_of_items_in. split; [|done]. apply Hkeys. by rewrite Hk.
  - intros k v Hk. destruct (Hval k v Hk) as [Hres|?]; [|done].
    by rewrite lookup_empty in Hres.
Qed.

(** X17: on a store without records verify_all_files returns the empty
    dict and changes nothing: nothing is saved. *)
Theorem verify_all_files_empty keys s :
  files_of (database s) = Some ∅ ->
  key_order keys ∅ ->
  verify_all_files keys s = (Return ∅, s).
Proof.
  intros Hf [_ Hkeys].
  assert (keys = []) as ->.
  { destruct keys as [|k keys]; [done|].
    destruct (proj1 (Hkeys k)) as [v Hv]; [by left|].
    by rewrite lookup_empty in Hv. }
  unfold verify_all_files. rewrite bind_eq, read_eq, (getpath_files _ _ _ Hf).
  by rewrite getpath_nil, bind_eq.
Qed.

(** ** The listing *)

Lemma items_in_lookup keys m :
  (forall k, k ∈ keys -> is_Some (m !! k)) ->
  length (items_in keys m) = length keys /\
  forall i k, keys !! i = Some k ->
    exists v, m !! k = Some v /\ items_in keys m !! i = Some (k, v).
Proof.
  unfold items_in. induction keys as [|k0 keys IH]; intros Hall.
  { split; [done|]. by intros i k. }
  destruct IH as [IHlen IHi].
  { intros k Hk. apply Hall. by right. }
  destruct (Hall k0) as [v0 Hv0]; [by left|]. simpl. rewrite Hv0. simpl. split.
  - f_equal. exact IHlen.
  - intros [|i] k Hk; simpl in *.
    + injection Hk as <-. by exists v0.
    + exact (IHi i k Hk).
Qed.

Lemma key_order_length keys m :
  key_order keys m -> length keys = size m.
Proof.
  intros [Hnd Hkeys]. rewrite <- size_dom, <- (size_list_to_set (C := gset string)) by done.
  f_equal. apply set_eq. intros k.
  by rewrite elem_of_list_to_set, elem_of_dom.
Qed.

(** A dict built from pairs with distinct keys goes through them in the
    order written. *)
Lemma key_order_list_to_map (items : list (string * json)) :
  NoDup items.*1 -> key_order items.*1 (list_to_map items).
Proof.
  intros Hnd. split; [done|]. intros k.
  by rewrite <- elem_of_dom, dom_list_to_map_L, elem_of_list_to_set.
Qed.

Lemma list_entry_cases file_path v :
  (listable v /\ exists entry, list_entry file_path v = Return entry) \/
  (~ listable v /\ (list_entry file_path v = Raise KeyError
                    \/ list_entry file_path v = Raise TypeError)).
Proof.
  destruct v as [| | | | |r];
    try (right; split; [by intros (r & ? & _)|by right]).
  unfold list_entry, listable. simpl.
  destruct (r !! "hash") as [h|] eqn:Hh; simpl;
    [|right; split; [|by left];
      intros (r0 & [= <-] & [? Hs] & _); by rewrite Hh in Hs].
  destruct (r !! "size") as [sz|] eqn:Hsz; simpl;
    [|right; split; [|by left];
      intros (r0 & [= <-] & _ & [? Hs] & _); by rewrite Hsz in Hs].
  destruct (r !! "added_date") as [ad|] eqn:Had; simpl;
    [|right; split; [|by left];
      intros (r0 & [= <-] & _ & _ & [? Hs]); by rewrite Had in Hs].
  left. split; [|by eexists].
  exists r. rewrite Hh, Hsz, Had. by eauto.
Qed.

Lemma list_each_Return items :
  (forall kv, kv ∈ items -> listable kv.2) ->
  exists entries,
    list_each items = Return entries /\
    length entries = length items /\
    forall i k v, items !! i = Some (k, v) ->
      exists entry, entries !! i = Some entry /\ list_entry k v = Return entry.
Proof.
  induction items as [|[k0 v0] items IH]; intros Hall.
  { exists []. by repeat split. }
  destruct IH as (entries & Heach & Hlen & Hi).
  { intros kv Hkv. apply Hall. by right. }
  destruct (list_entry_cases k0 v0) as [[_ [entry Hentry]]|[Hno _]];
    [|destruct Hno; apply (Hall (k0, v0)); by left].
  exists (entry :: entries). simpl. rewrite Hentry, Heach. simpl.
  split; [done|]. split; [by rewrite Hlen|].
  intros [|i] k v Hk; simpl in *.
  - injection Hk as <- <-. by exists entry.
  - by apply Hi.
Qed.

Lemma list_each_Raise items kv :
  kv ∈ items -> ~ listable kv.2 ->
  list_each items = Raise KeyError \/ list_each items = Raise TypeError.
Proof.
  induction items as [|[k0 v0] items IH]; intros Hin Hno.
  { by apply elem_of_nil in Hin. }
  simpl.
  destruct (list_entry_cases k0 v0) as [[Hyes [entry ->]]|[_ [-> | ->]]];
    [|by left|by right].
  simpl. apply elem_of_cons in Hin as [->|Hin]; [done|].
  destruct (IH Hin Hno) as [-> | ->]; [by left|by right].
Qed.

(** X18: when every record is a dict with "hash", "size" and "added_date",
    list_files returns one entry per record, in the order of the dict, and
    changes nothing. Each entry gives the key as "path", the three fields
    as recorded, and for a missing "last_checked", "status", "description"
    or "check_count" the defaults "Never", "unknown", the empty string and
    0. *)
Theorem list_files_lists keys s f :
  files_of (database s) = Some f ->
  key_order keys f ->
  (forall k v, f !! k = Some v -> listable v) ->
  exists entries,
    list_files keys s = (Return entries, s) /\
    length entries = size f /\
    forall i k, keys !! i = Some k ->
      exists r entry h size added_date,
        f !! k = Some (JObj r) /\ entries !! i = Some entry /\
        getitem entry "path" = Return (JStr k) /\
        r !! "hash" = Some h /\ getitem entry "hash" = Return h /\
        r !! "size" = Some size /\ getitem entry "size" = Return size /\
        r !! "added_date" = Some added_date /\
        getitem entry "added_date" = Return added_date /\
        getitem entry "last_checked"
        = Return (default (JStr "Never") (r !! "last_checked")) /\
        getitem entry "status"
        = Return (default (JStr "unknown") (r !! "status")) /\
        getitem entry "description"
        = Return (default (JStr EmptyString) (r !! "description")) /\
        getitem entry "check_count"
        = Return (default (JNum 0) (r !! "check_count")).
Proof.
  intros Hf Hkeys Hall.
  destruct (items_in_lookup keys f) as [Hlen Hitems].
  { intros k Hk. by apply Hkeys. }
  destruct (list_each_Return (items_in keys f)) as (entries & Heach & Hlen' & Hi).
  { intros [k v] Hkv. apply elem_of_items_in in Hkv as [_ Hk]. by eapply Hall. }
  exists entries. split; [|split].
  - unfold list_files. rewrite bind_eq, read_eq, (getpath_files _ _ _ Hf).
    rewrite getpath_nil, bind_eq. unfold lift. simpl. by rewrite Heach.
  - by rewrite Hlen', Hlen, (key_order_length _ _ Hkeys).
  - intros i k Hk. destruct (Hitems i k Hk) as (v & Hv & Hitem).
    destruct (Hi i k v Hitem) as (entry & Hentry & Hlist).
    destruct (Hall k v Hv) as (r & -> & [h Hh] & [sz Hsz] & [ad Had]).
    exists r, entry, h, sz, ad. split; [done|]. split; [done|].
    unfold list_entry in Hlist. simpl in Hlist.
    rewrite Hh, Hsz, Had in Hlist. simpl in Hlist. injection Hlist as <-.
    by repeat split.
Qed.

(** X19: one record that is not a dict, or lacks "hash", "size" or
    "added_date", makes the whole listing raise KeyError or TypeError:
    no list is returned, and nothing is changed. *)
Theorem list_files_incomplete_record keys s f k v :
  files_of (database s) = Some f ->
  key_order keys f ->
  f !! k = Some v ->
  ~ listable v ->
  list_files keys s = (Raise KeyError, s) \/
  list_files keys s = (Raise TypeError, s).
Proof.
  intros Hf [_ Hkeys] Hk Hno.
  unfold list_files. rewrite bind_eq, read_eq, (getpath_files _ _ _ Hf).
  rewrite getpath_nil, bind_eq. unfold lift. simpl.
  destruct (list_each_Raise (items_in keys f) (k, v)) as [-> | ->];
    [|done|by left|by right].
  apply elem_of_items_in. split; [|done]. apply Hkeys. by rewrite Hk.
Qed.

End FileIntegrityChecker.

(** * The theorems at work on the sample world *)

(** Adding a path again whose record named md5 leaves a sha256 record. *)
Lemma add_file_records_sha256_witness :
  let s := Sample.checker "md5" "hello" ∅ in
  let s' := snd (add_file Sample.abspath Sample.hashlib_new Sample.st_size
                          Sample.isoformat_now "a.txt" "notes" s) in
  field_at (database s) "/work/a.txt" "algorithm" = Some (JStr "md5") /\
  exists r,
    record_at (database s') "/work/a.txt" = Some r /\
    r !! "algorithm" = Some (JStr "sha256").
Proof.
  intros s s'. split; [vm_compute; reflexivity|].
  destruct (add_file_records_sha256 Sample.abspath Sample.hashlib_new
              Sample.st_size Sample.isoformat_now "a.txt" "notes" s
              (Return true) s') as [Hw _].
  { vm_compute. reflexivity. }
  destruct (Hw eq_refl) as (r & hexdigest & data & Hr & Ha & _).
  exists r. split; assumption.
Defined.

(** The file is changed, verified (tampered), restored and verified again
    (verified). *)
Lemma status_follows_last_check_witness :
  let verify := verify_file Sample.abspath Sample.hashlib_new
                            Sample.isoformat_now "a.txt" in
  let s0 := Sample.checker "sha256" "world" ∅ in
  let s1 := snd (verify s0) in
  let restored := <["/work/a.txt" := File true (Text "hello")]> (fs s1) in
  let s2 := snd (verify (with_faults (with_fs s1 restored) ∅)) in
  field_at (database s1) "/work/a.txt" "status" = Some (JStr "tampered") /\
  field_at (database s2) "/work/a.txt" "status" = Some (JStr "verified").
Proof.
  intros verify s0 s1 restored s2.
  pose (c1 := mkCall (Sample.abspath "a.txt")
                (verdict Sample.hashlib_new s0 (Sample.abspath "a.txt"))
                (fst (verify s0))).
  pose (c2 := mkCall (Sample.abspath "a.txt")
                (verdict Sample.hashlib_new
                   (with_faults (with_fs s1 restored) ∅) (Sample.abspath "a.txt"))
                (fst (verify (with_faults (with_fs s1 restored) ∅)))).
  assert (Hrun1 : run Sample.abspath Sample.hashlib_new Sample.isoformat_now
                      s0 [c1] s1).
  { eapply run_verify; [apply surjective_pairing|apply run_done]. }
  assert (Hrun2 : run Sample.abspath Sample.hashlib_new Sample.isoformat_now
                      s0 [c1; c2] s2).
  { eapply run_verify; [apply surjective_pairing|].
    apply (run_outside _ _ _ _ restored ∅).
    eapply run_verify; [apply surjective_pairing|apply run_done]. }
  pose (answer := fun o : outcome (string * json) =>
                    match o with
                    | Return x => x
                    | Raise _ => (EmptyString, JNull)
                    end).
  split.
  - apply (status_follows_last_check _ _ _ s0 [c1] s1 "/work/a.txt" false
             (answer (call_outcome c1)) Hrun1); [|reflexivity].
    vm_compute. reflexivity.
  - apply (status_follows_last_check _ _ _ s0 [c1; c2] s2 "/work/a.txt" true
             (answer (call_outcome c2)) Hrun2); [|reflexivity].
    vm_compute. reflexivity.
Defined.

(** A verification that finds the file changed raises the count from 1 to
    2. *)
Lemma verify_file_check_count_witness :
  let s0 := Sample.checker "sha256" "world" ∅ in
  let run := verify_file Sample.abspath Sample.hashlib_new
                         Sample.isoformat_now "a.txt" s0 in
  field_at (database s0) "/work/a.txt" "check_count" = Some (JNum 1) /\
  field_at (database (snd run)) "/work/a.txt" "check_count" = Some (JNum 2).
Proof.
  intros s0 run. split; [vm_compute; reflexivity|].
  pose (info := match fst run with
                | Return (_, i) => i
                | Raise _ => JNull
                end).
  destruct (verify_file_check_count Sample.abspath Sample.hashlib_new
              Sample.isoformat_now "a.txt" s0 "tampered" info (snd run))
    as (_ & Hcount & _).
  { vm_compute. reflexivity. }
  destruct (Hcount (or_intror eq_refl)) as (r & n & Hr & Hn & Hfield).
  assert (Hrec : record_at (database s0) (Sample.abspath "a.txt")
                 = Some (Sample.record "sha256")) by (vm_compute; reflexivity).
  rewrite Hrec in Hr. injection Hr as <-.
  vm_compute in Hn. injection Hn as <-.
  exact Hfield.
Defined.

(** After the file is restored and verified again, the date of the earlier
    mismatch is still in the record. *)
Lemma tampered_date_is_kept_witness :
  let verify := verify_file Sample.abspath Sample.hashlib_new
                            Sample.isoformat_now "a.txt" in
  let s1 := snd (verify (Sample.checker "sha256" "world" ∅)) in
  let restored := <["/work/a.txt" := File true (Text "hello")]> (fs s1) in
  let s2 := snd (verify (with_faults (with_fs s1 restored) ∅)) in
  field_at (database s2) "/work/a.txt" "status" = Some (JStr "verified") /\
  field_at (database s2) "/work/a.txt" "tampered_date" = Some (JStr "t2").
Proof.
  intros verify s1 restored s2. split; [vm_compute; reflexivity|].
  pose (c2 := mkCall (Sample.abspath "a.txt")
                (verdict Sample.hashlib_new
                   (with_faults (with_fs s1 restored) ∅) (Sample.abspath "a.txt"))
                (fst (verify (with_faults (with_fs s1 restored) ∅)))).
  refine (proj2 (tampered_date_is_kept Sample.abspath Sample.hashlib_new
                   Sample.isoformat_now s1 [c2] s2 "/work/a.txt" (JStr "t2")
                   _ _) _).
  - apply (run_outside _ _ _ _ restored ∅).
    eapply run_verify; [apply surjective_pairing|apply run_done].
  - vm_compute. reflexivity.
  - constructor; [|constructor]. intros _. vm_compute. discriminate.
Defined.

(** A record taken with md5 is verified with md5. *)
Lemma verify_file_uses_recorded_algorithm_witness :
  let s := Sample.checker "md5" "hello" ∅ in
  let run := verify_file Sample.abspath Sample.hashlib_new
                         Sample.isoformat_now "a.txt" s in
  exists info,
    fst run = Return ("verified", info) /\
    getitem info "hash" = Return (JStr (Sample.digest "md5" (Text "hello"))).
Proof.
  intros s run.
  pose (info := match fst run with
                | Return (_, i) => i
                | Raise _ => JNull
                end).
  exists info. split; [vm_compute; reflexivity|].
  destruct (verify_file_uses_recorded_algorithm Sample.abspath
              Sample.hashlib_new Sample.isoformat_now "a.txt" s "verified"
              info (snd run) (Sample.record "md5"))
    as (alg & hexdigest & d & Halg & Hnew & Hd & _ & Hinfo).
  { vm_compute. reflexivity. }
  { vm_compute. reflexivity. }
  { left. reflexivity. }
  destruct Halg as [Halg|[Halg _]]; [|vm_compute in Halg; discriminate].
  vm_compute in Halg. injection Halg as <-.
  vm_compute in Hnew. injection Hnew as <-.
  vm_compute in Hd. injection Hd as <-.
  exact Hinfo.
Defined.



(** Export, a new checker on a new database path, import. *)
Lemma export_import_roundtrip_witness :
  let s := Sample.checker "sha256" "hello" ∅ in
  let s2 := snd (export_database "/work/export.json" s) in
  let s3 := snd (__init__ Sample.isoformat_now "/work/new.json" s2) in
  let run := import_database Sample.isoformat_now "/work/export.json" false s3 in
  files_of (database (snd run)) = Some (Sample.files "sha256") /\
  fst run = Return true.
Proof.
  intros s s2 s3 run.
  destruct (export_import_roundtrip Sample.isoformat_now "/work/export.json"
              "/work/new.json" s s2) as (s3' & Hinit & _ & Himport).
  { vm_compute. reflexivity. }
  { intros d. vm_compute. discriminate. }
  { vm_compute. reflexivity. }
  apply (f_equal snd) in Hinit. simpl in Hinit. subst s3'.
  destruct (Himport (fst run) (snd run) (surjective_pairing _))
    as (Hfiles & Hok & _).
  split.
  - rewrite Hfiles. vm_compute. reflexivity.
  - rewrite Hok; [vm_compute; reflexivity|].
    exists Sample.metadata. vm_compute. reflexivity.
Defined.

(** Merging a store that has another record for the tracked path. *)
Lemma import_merge_files_witness :
  let s := Sample.checker "sha256" "hello" ∅ in
  let s' := snd (import_database Sample.isoformat_now "/work/other.json" true s) in
  exists m',
    database s' = JObj m' /\
    m' !! "files" = Some (JObj (Sample.other_files ∪ Sample.files "sha256")) /\
    (Sample.other_files ∪ Sample.files "sha256") !! "/work/a.txt"
    = Some (JObj (Sample.record "md5")).
Proof.
  intros s s'.
  destruct (import_merge_files Sample.isoformat_now "/work/other.json" s
              (Sample.top "sha256") (Sample.files "sha256") Sample.other_store
              Sample.other_files
              (fst (import_database Sample.isoformat_now "/work/other.json" true s))
              s')
    as (m' & Hdb & Hfiles & Hfrom & _).
  { vm_compute. reflexivity. }
  { reflexivity. }
  { vm_compute. reflexivity. }
  { vm_compute. reflexivity. }
  { apply surjective_pairing. }
  exists m'. split; [exact Hdb|]. split; [exact Hfiles|].
  apply Hfrom. vm_compute. reflexivity.
Defined.

(** A database file holding the byte 0xFF. *)
Lemma load_database_undecodable_witness :
  __init__ Sample.isoformat_now "/work/db.json" Sample.undecodable
  = (Raise UnicodeDecodeError,
     with_database_path Sample.undecodable "/work/db.json").
Proof.
  apply (load_database_undecodable Sample.isoformat_now "/work/db.json"
           Sample.undecodable [xff]).
  vm_compute. reflexivity.
Defined.

(** An unchanged file, a database file that cannot be written: the answer
    is "verified", the error of the save is on the console, the disk is as
    before. *)
Lemma verify_file_ignores_failed_save_witness :
  let s := Sample.checker "sha256" "hello" Sample.read_only in
  exists info s',
    verify_file Sample.abspath Sample.hashlib_new Sample.isoformat_now "a.txt" s
    = (Return ("verified", info), s') /\
    field_at (database s') "/work/a.txt" "check_count" = Some (JNum 2) /\
    fs s' = fs s /\
    stdout s' = [ErrSave IOError].
Proof.
  intros s.
  destruct (verify_file_ignores_failed_save Sample.abspath Sample.hashlib_new
              Sample.isoformat_now "a.txt" s (Sample.top "sha256")
              (Sample.files "sha256") (Sample.record "sha256") Sample.metadata
              (Sample.digest "sha256" (Text "hello"))
              (JStr (Sample.digest "sha256" (Text "hello"))) 1)
    as (info & s' & Hcall & Hcount & Hfs & Hout).
  all: try (vm_compute; reflexivity).
  exists info, s'. split; [exact Hcall|]. split; [exact Hcount|].
  split; [|exact Hout].
  apply (f_equal snd) in Hcall. simpl in Hcall. subst s'.
  vm_compute. reflexivity.
Defined.

(** * The further properties at work on the sample world *)


(** A path never added is unknown; the tracked path on an empty disk is
    missing. *)
Lemma verify_file_unknown_or_missing_witness :
  let verify := verify_file Sample.abspath Sample.hashlib_new
                            Sample.isoformat_now in
  let s := Sample.checker "sha256" "hello" ∅ in
  let gone := with_fs s ∅ in
  fst (verify "b.txt" s)
  = Return ("unknown", dict [("message", JStr "File not in database")]) /\
  fst (verify "a.txt" gone)
  = Return ("missing", dict [("message", JStr "File no longer exists")]).
Proof.
  intros verify s gone. split.
  - destruct (verify_file_unknown_or_missing Sample.abspath
                Sample.hashlib_new Sample.isoformat_now "b.txt" s
                (Sample.files "sha256")) as [H _]; [vm_compute; reflexivity|].
    unfold verify. rewrite H; [reflexivity|vm_compute; reflexivity].
  - destruct (verify_file_unknown_or_missing Sample.abspath
                Sample.hashlib_new Sample.isoformat_now "a.txt" gone
                (Sample.files "sha256")) as [_ H]; [vm_compute; reflexivity|].
    unfold verify. rewrite H; [reflexivity| |vm_compute; reflexivity].
    eexists. vm_compute. reflexivity.
Defined.

(** A verification that finds the file changed keeps the stored hash. *)
Lemma verify_file_keeps_baseline_witness :
  let s := Sample.checker "sha256" "world" ∅ in
  let run := verify_file Sample.abspath Sample.hashlib_new
                         Sample.isoformat_now "a.txt" s in
  field_at (database (snd run)) "/work/a.txt" "hash"
  = Some (JStr "sha256:hello").
Proof.
  intros s run.
  destruct (verify_file_keeps_baseline Sample.abspath Sample.hashlib_new
              Sample.isoformat_now "a.txt" s (fst run) (snd run)) as [_ H];
    [apply surjective_pairing|].
  rewrite H by discriminate. vm_compute. reflexivity.
Defined.

(** The tracked path is unknown once removed. *)
Lemma remove_file_then_verify_witness :
  let s := Sample.checker "sha256" "hello" ∅ in
  let s1 := snd (remove_file Sample.abspath Sample.isoformat_now "a.txt" s) in
  fst (verify_file Sample.abspath Sample.hashlib_new Sample.isoformat_now
                   "a.txt" s1)
  = Return ("unknown", dict [("message", JStr "File not in database")]).
Proof.
  intros s s1.
  rewrite (remove_file_then_verify Sample.abspath Sample.hashlib_new
             Sample.isoformat_now "a.txt" s (Sample.files "sha256")
             (fst (remove_file Sample.abspath Sample.isoformat_now "a.txt" s))
             s1);
    [reflexivity|vm_compute; reflexivity|apply surjective_pairing].
Defined.

(** A path with no file is refused. *)
Lemma add_file_refuses_witness :
  let s := Sample.checker "sha256" "hello" ∅ in
  fst (add_file Sample.abspath Sample.hashlib_new Sample.st_size
                Sample.isoformat_now "none.txt" "notes" s)
  = Return false.
Proof.
  intros s.
  destruct (add_file_refuses Sample.abspath Sample.hashlib_new Sample.st_size
              Sample.isoformat_now "none.txt" "notes" s) as [out H].
  { intros data. vm_compute. discriminate. }
  rewrite H. reflexivity.
Defined.



(** The store saved by the sample checker is the one a new checker loads. *)
Lemma save_then_load_witness :
  let s := Sample.checker "sha256" "hello" ∅ in
  let s' := snd (_save_database Sample.isoformat_now s) in
  __init__ Sample.isoformat_now "/work/db.json" s' = (Return tt, s').
Proof.
  intros s s'.
  apply (save_then_load Sample.isoformat_now s s').
  - vm_compute. reflexivity.
  - intros d. vm_compute. discriminate.
Defined.



(** Importing the file that is not UTF-8 raises. *)
Lemma import_database_undecodable_witness :
  import_database Sample.isoformat_now "/work/db.json" true Sample.undecodable
  = (Raise UnicodeDecodeError, Sample.undecodable).
Proof.
  apply (import_database_undecodable Sample.isoformat_now "/work/db.json" true
           Sample.undecodable [xff]).
  vm_compute. reflexivity.
Defined.


(** Importing a document without metadata raises KeyError. *)
Lemma import_database_without_metadata_witness :
  let s := Sample.checker "sha256" "hello" ∅ in
  let disk := <["/work/bare.json" := File true (Doc (JObj Sample.bare_store))]>
                (fs s) in
  fst (import_database Sample.isoformat_now "/work/bare.json" false
                       (with_fs s disk))
  = Raise KeyError.
Proof.
  intros s disk.
  rewrite (import_database_without_metadata Sample.isoformat_now
             "/work/bare.json" (with_fs s disk) Sample.bare_store);
    [reflexivity|vm_compute; reflexivity|vm_compute; reflexivity].
Defined.

(** Two merging imports of the other store in a row. *)
Lemma import_merge_twice_witness :
  let import := import_database Sample.isoformat_now "/work/other.json" true in
  let s := Sample.checker "sha256" "hello" ∅ in
  let s1 := snd (import s) in
  let s2 := snd (import s1) in
  files_of (database s2) = files_of (database s1).
Proof.
  intros import s s1 s2.
  apply (import_merge_twice Sample.isoformat_now "/work/other.json" s
           (Sample.files "sha256") Sample.other_store Sample.other_files
           (fst (import s)) s1 (fst (import s1)) s2).
  - vm_compute. reflexivity.
  - vm_compute. reflexivity.
  - vm_compute. reflexivity.
  - vm_compute. discriminate.
  - apply surjective_pairing.
  - apply surjective_pairing.
Defined.

(** Verifying all records keeps the stored hash of a changed file. *)
Lemma verify_all_files_keeps_baseline_witness :
  let s := Sample.checker "sha256" "world" ∅ in
  let run := verify_all_files Sample.abspath Sample.hashlib_new
                              Sample.isoformat_now Sample.keys s in
  field_at (database (snd run)) "/work/a.txt" "hash"
  = Some (JStr "sha256:hello").
Proof.
  intros s run.
  destruct (verify_all_files_keeps_baseline Sample.abspath Sample.hashlib_new
              Sample.isoformat_now Sample.keys s (fst run) (snd run))
    as [_ H]; [apply surjective_pairing|].
  rewrite H by discriminate. vm_compute. reflexivity.
Defined.

(** The results of the sample checker have an entry for the tracked
    path. *)
Lemma verify_all_files_results_witness :
  let s := Sample.checker "sha256" "world" ∅ in
  let run := verify_all_files Sample.abspath Sample.hashlib_new
                              Sample.isoformat_now Sample.keys s in
  exists results,
    fst run = Return results /\ is_Some (results !! "/work/a.txt").
Proof.
  intros s run.
  pose (results := match fst run with Return r => r | Raise _ => ∅ end).
  destruct (verify_all_files_results Sample.abspath Sample.hashlib_new
              Sample.isoformat_now Sample.keys s (Sample.files "sha256")
              results (snd run)) as [Hdom _].
  - vm_compute. reflexivity.
  - apply (key_order_list_to_map
             [("/work/a.txt", JObj (Sample.record "sha256"))]).
    apply NoDup_singleton.
  - vm_compute. reflexivity.
  - exists results. split; [vm_compute; reflexivity|].
    apply Hdom. eexists. vm_compute. reflexivity.
Defined.

(** Verifying all records of the empty store. *)
Lemma verify_all_files_empty_witness :
  verify_all_files Sample.abspath Sample.hashlib_new Sample.isoformat_now
                   [] Sample.empty
  = (Return ∅, Sample.empty).
Proof.
  apply verify_all_files_empty.
  - vm_compute. reflexivity.
  - apply (key_order_list_to_map []). constructor.
Defined.

(** The listing of the sample checker has one entry. *)
Lemma list_files_lists_witness :
  let s := Sample.checker "sha256" "hello" ∅ in
  exists entries,
    list_files Sample.keys s = (Return entries, s) /\ length entries = 1.
Proof.
  intros s.
  destruct (list_files_lists Sample.keys s (Sample.files "sha256"))
    as (entries & Hcall & Hlen & _).
  - vm_compute. reflexivity.
  - apply (key_order_list_to_map
             [("/work/a.txt", JObj (Sample.record "sha256"))]).
    apply NoDup_singleton.
  - intros k v Hk. unfold Sample.files in Hk.
    apply elem_of_list_to_map_2, list_elem_of_singleton in Hk.
    injection Hk as -> ->.
    exists (Sample.record "sha256"). split; [reflexivity|].
    repeat split; eexists; vm_compute; reflexivity.
  - exists entries. split; [exact Hcall|].
    rewrite Hlen. vm_compute. reflexivity.
Defined.

(** The listing of the store edited by hand raises. *)
Lemma list_files_incomplete_record_witness :
  let run := list_files ["/work/a.txt"; "/work/c.txt"] Sample.partial in
  fst run = Raise KeyError \/ fst run = Raise TypeError.
Proof.
  intros run.
  destruct (list_files_incomplete_record ["/work/a.txt"; "/work/c.txt"]
              Sample.partial (list_to_map Sample.partial_items)
              "/work/c.txt" (dict [("hash", JStr "sha256:x")])) as [H|H].
  - vm_compute. reflexivity.
  - apply (key_order_list_to_map Sample.partial_items).
    apply (bool_decide_unpack _). vm_compute. reflexivity.
  - vm_compute. reflexivity.
  - intros (r & Hr & _ & [size Hsize] & _). injection Hr as <-.
    vm_compute in Hsize. discriminate.
  - left. unfold run. rewrite H. reflexivity.
  - right. unfold run. rewrite H. reflexivity.
Defined.
